(** * Energy monitor: the client-side analytics of the dashboard pages

    A shallow embedding of the JavaScript of the energy monitor's pages
    (the compare page, the desktop dashboard and the mobile dashboard) and
    the properties of their time-series code.

    Conventions of the embedding.
    - A JavaScript number that the code uses as a timestamp (milliseconds or
      seconds since the epoch) is an integer [Z].
    - A measured quantity (watts, kWh, cost) is an exact rational [Q]; the
      rounding of binary64 arithmetic is not modelled.  [null], [undefined]
      and [NaN] are [None]: the code tests all of them the same way, with
      [Number.isFinite] or [!= null].
    - A function that returns early without rendering anything returns
      [None]; what it renders otherwise is returned as a record.
    - [Date] is modelled by the proleptic Gregorian calendar in a time zone
      at a fixed offset [tz] (milliseconds east of UTC). *)

From Stdlib Require Import ZArith QArith Qminmax List Sorted Bool Lia Lqa.
From Stdlib Require Import Ascii String.
Import ListNotations.

Local Open Scope Z_scope.

(** ** The [Date] built-in *)

Module JSDate.

Definition msPerDay : Z := 86400000.

Definition Day (t : Z) : Z := t / msPerDay.
Definition TimeWithinDay (t : Z) : Z := t mod msPerDay.

(** Day number (days since 1970-01-01) of the civil date [y]-[m0+1]-[d],
    for a month index [m0] in 0..11. *)
Definition daysFromCivil (y m0 d : Z) : Z :=
  let m := m0 + 1 in
  let y' := if m <=? 2 then y - 1 else y in
  let era := y' / 400 in
  let yoe := y' - era * 400 in
  let mp := if 2 <? m then m - 3 else m + 9 in
  let doy := (153 * mp + 2) / 5 + d - 1 in
  let doe := yoe * 365 + yoe / 4 - yoe / 100 + doy in
  era * 146097 + doe - 719468.

(** Civil date (year, month index 0..11, day of month) of a day number. *)
Definition civilFromDays (z : Z) : Z * Z * Z :=
  let z' := z + 719468 in
  let era := z' / 146097 in
  let doe := z' - era * 146097 in
  let yoe := (doe - doe / 1460 + doe / 36524 - doe / 146096) / 365 in
  let y := yoe + era * 400 in
  let doy := doe - (365 * yoe + yoe / 4 - yoe / 100) in
  let mp := (5 * doy + 2) / 153 in
  let d := doy - (153 * mp + 2) / 5 + 1 in
  let m := if mp <? 10 then mp + 3 else mp - 9 in
  (if m <=? 2 then y + 1 else y, m - 1, d).

(** ECMAScript's MakeDay, MakeTime and MakeDate: a month outside 0..11
    carries into the year, a day of month outside the month carries into
    the following (or preceding) days. *)
Definition MakeDay (year month date : Z) : Z :=
  let ym := year + month / 12 in
  let mn := month mod 12 in
  daysFromCivil ym mn 1 + date - 1.

Definition MakeTime (h mi s ms : Z) : Z :=
  h * 3600000 + mi * 60000 + s * 1000 + ms.

Definition MakeDate (day time : Z) : Z := day * msPerDay + time.

Section Zone.
Variable tz : Z.

Definition LocalTime (t : Z) : Z := t + tz.
Definition UTC (t : Z) : Z := t - tz.

(** [new Date(y, m, d, h, mi, s, ms).getTime()]; a year in 0..99 means
    1900 + year. *)
Definition newDate (y m d h mi s ms : Z) : Z :=
  let yr := if (0 <=? y) && (y <=? 99) then 1900 + y else y in
  UTC (MakeDate (MakeDay yr m d) (MakeTime h mi s ms)).

Definition getFullYear (t : Z) : Z :=
  fst (fst (civilFromDays (Day (LocalTime t)))).
Definition getMonth (t : Z) : Z :=
  snd (fst (civilFromDays (Day (LocalTime t)))).
Definition getDate (t : Z) : Z :=
  snd (civilFromDays (Day (LocalTime t))).

(** The first and the last millisecond of the local calendar day that
    contains [t]. *)
Definition startOfLocalDay (t : Z) : Z :=
  UTC (Day (LocalTime t) * msPerDay).
Definition endOfLocalDay (t : Z) : Z :=
  startOfLocalDay t + (msPerDay - 1).
End Zone.

End JSDate.

(** The year-of-era and month computed by [civilFromDays] stay in range:
    checked on each of the 146097 days of a 400-year era. *)
Definition era_day_ok (doe : Z) : bool :=
  let yoe := (doe - doe / 1460 + doe / 36524 - doe / 146096) / 365 in
  let doy := doe - (365 * yoe + yoe / 4 - yoe / 100) in
  let mp := (5 * doy + 2) / 153 in
  (0 <=? yoe) && (yoe <=? 399) && (0 <=? mp) && (mp <=? 11).

Fixpoint all_from (f : Z -> bool) (start : Z) (n : nat) : bool :=
  match n with
  | O => true
  | S k => f start && all_from f (start + 1) k
  end.

(** ** Desktop dashboard: series, window statistics and selection *)

Module Dashboard.

(** A row of [GET readings]: [{t, p, e}]. *)
Record Reading := { t : Z; p : option Q; e : option Q }.

(** The module-level arrays [xVals] (seconds), [yVals] (watts) and
    [eVals] (kWh), and the flag [usedDerived]. *)
Record Series := {
  xVals : list Z;
  yVals : list (option Q);
  eVals : list (option Q);
  usedDerived : bool
}.

(** The body of the loop of [fetchReadings] that derives power from the
    energy of two adjacent rows [a], [b]: the point pushed on [derived],
    if any.  The tests [typeof a.t === "number"] hold by the type of [t]. *)
Definition derivedPoint (a b : Reading) : option (Z * option Q) :=
  match e a, e b with
  | Some ea, Some eb =>
      if t a <? t b then
        let dE_kWh := (eb - ea)%Q in
        let dt_ms := t b - t a in
        if 0 <? dt_ms then
          let watts := Qmax 0 (dE_kWh * 3600000000 / inject_Z dt_ms) in
          Some (t b, Some watts)
        else None
      else None
  | _, _ => None
  end.

(** [for (let i = 1; i < rows.length; i++)] over [rows[i-1]], [rows[i]]. *)
Fixpoint derive (rows : list Reading) : list (Z * option Q) :=
  match rows with
  | a :: tl =>
      match tl with
      | b :: _ =>
          match derivedPoint a b with
          | Some pt => pt :: derive tl
          | None => derive tl
          end
      | [] => []
      end
  | [] => []
  end.

Definition isNull {A} (v : option A) : bool :=
  match v with None => true | Some _ => false end.

Definition isFinite {A} (v : option A) : bool := negb (isNull v).

(** The series that [fetchReadings] stores from the rows of a successful
    response. *)
Definition fetchReadings (rows : list Reading) : Series :=
  let mapped := map (fun r => (t r, p r)) rows in
  let derived := derive rows in
  let useDerived :=
    (0 <? Z.of_nat (List.length mapped))
    && forallb (fun pt => isNull (snd pt)) mapped
    && (0 <? Z.of_nat (List.length derived)) in
  let mapped := if useDerived then derived else mapped in
  {| xVals := map (fun m => fst m / 1000) mapped;
     yVals := map (fun m => snd m) mapped;
     eVals := map (fun r => e r) rows;
     usedDerived := useDerived |}.

(** The derivation of power from energy, read from its rule: the adjacent
    pairs of readings, the pairs with both energies non-null and a time
    that advances, and the point each of them yields at the later time. *)
Definition adjacentPairs (rows : list Reading) : list (Reading * Reading) :=
  combine rows (tl rows).

Definition validPair (ab : Reading * Reading) : bool :=
  isFinite (e (fst ab)) && isFinite (e (snd ab)) && (t (fst ab) <? t (snd ab)).

Definition pairWatts (ab : Reading * Reading) : option Q :=
  match e (fst ab), e (snd ab) with
  | Some ea, Some eb =>
      Some (Qmax 0 ((eb - ea) * 3600000000 / inject_Z (t (snd ab) - t (fst ab))))
  | _, _ => None
  end.

(** What [computeStatsLocal] renders: the values it passes to [fmt.n]
    and the count. *)
Record Stats := {
  count : nat;
  avgP : option Q;
  maxP : option Q;
  minP : option Q;
  energyUsed : option Q;
  cost : option Q
}.

(** [let i0 = 0; while (i0 < xVals.length && xVals[i0] < startSec) i0++]. *)
Fixpoint find_i0 (xVals : list Z) (startSec : Z) : nat :=
  match xVals with
  | [] => O
  | x :: rest => if x <? startSec then S (find_i0 rest startSec) else O
  end.

(** [while (i1 >= 0 && xVals[i1] > endSec) i1--], on [n1 = i1 + 1]. *)
Fixpoint find_n1 (xVals : list Z) (endSec : Z) (n1 : nat) : nat :=
  match n1 with
  | O => O
  | S i1 =>
      match nth_error xVals i1 with
      | Some x => if endSec <? x then find_n1 xVals endSec i1 else S i1
      | None => S i1
      end
  end.

(** [arr.slice(from, to)]. *)
Definition slice {A} (arr : list A) (from to : nat) : list A :=
  firstn (to - from) (skipn from arr).

(** [.filter((v) => Number.isFinite(v))]. *)
Fixpoint finiteOnly (vals : list (option Q)) : list Q :=
  match vals with
  | [] => []
  | Some v :: rest => v :: finiteOnly rest
  | None :: rest => finiteOnly rest
  end.

(** [Math.min(...l)], [Math.max(...l)] and [l.reduce((a, b) => a + b, 0)]
    for a list that is not empty. *)
Definition minOf (l : list Q) : option Q :=
  match l with [] => None | v :: rest => Some (fold_left Qmin rest v) end.
Definition maxOf (l : list Q) : option Q :=
  match l with [] => None | v :: rest => Some (fold_left Qmax rest v) end.
Definition sumOf (l : list Q) : Q := fold_left Qplus l 0%Q.

(** The two loops that look for the first finite [eVals[i]], [i] running
    over [idxs]. *)
Fixpoint firstFinite (eVals : list (option Q)) (idxs : list nat) : option Q :=
  match idxs with
  | [] => None
  | i :: rest =>
      match nth i eVals None with
      | Some v => Some v
      | None => firstFinite eVals rest
      end
  end.

(** One step of the trapezoidal loop, at index [i]. *)
Definition trapezoidStep (xVals : list Z) (yVals : list (option Q))
    (sumWs : Q) (i : nat) : Q :=
  let dtSec := nth i xVals 0 - nth (i - 1) xVals 0 in
  match nth i yVals None, nth (i - 1) yVals None with
  | Some yi, Some yp =>
      if 0 <? dtSec then
        let wAvg := ((yi + yp) / 2)%Q in
        (sumWs + wAvg * inject_Z dtSec)%Q
      else sumWs
  | _, _ => sumWs
  end.

(** [computeStatsLocal(startMs, endMs)]; [None] when it returns before
    rendering. *)
Definition computeStatsLocal (s : Series) (costPerKwh : Q)
    (startMs endMs : Z) : option Stats :=
  let startSec := startMs / 1000 in
  let endSec := endMs / 1000 in
  if (List.length (xVals s) =? 0)%nat || (endSec <=? startSec) then None
  else
    let i0 := find_i0 (xVals s) startSec in
    let n1 := find_n1 (xVals s) endSec (List.length (xVals s)) in
    if (n1 <=? i0)%nat then None
    else
      let ySlice := finiteOnly (slice (yVals s) i0 n1) in
      let count := List.length ySlice in
      let minP := minOf ySlice in
      let maxP := maxOf ySlice in
      let avgP :=
        if (count =? 0)%nat then None
        else Some (sumOf ySlice / inject_Z (Z.of_nat count))%Q in
      let eStart := firstFinite (eVals s) (seq i0 (n1 - i0)) in
      let eEnd := firstFinite (eVals s) (rev (seq i0 (n1 - i0))) in
      let energyUsed :=
        match eStart, eEnd with
        | Some eStart, Some eEnd => Some (eEnd - eStart)%Q
        | _, _ =>
            let sumWs :=
              fold_left (trapezoidStep (xVals s) (yVals s))
                        (seq (S i0) (n1 - S i0)) 0%Q in
            Some (sumWs / 3600000)%Q
        end in
      let cost :=
        match energyUsed with
        | Some energyUsed => Some (energyUsed * costPerKwh)%Q
        | None => None
        end in
      Some {| count := count; avgP := avgP; maxP := maxP; minP := minP;
              energyUsed := energyUsed; cost := cost |}.

(** The statistics on display after a call of [computeStatsLocal], from
    the ones on display before it: the function writes the stat boxes only
    after its guards. *)
Definition statsShownAfter (shown : option Stats) (s : Series)
    (costPerKwh : Q) (startMs endMs : Z) : option Stats :=
  match computeStatsLocal s costPerKwh startMs endMs with
  | Some r => Some r
  | None => shown
  end.

(** The window [[startSec, endSec]], read from its definition: the points
    [(xVals[i], vals[i])] whose time is in the closed window, in the
    order of the series; and the finite ones among their values. *)
Fixpoint pointsInWindow (xVals : list Z) (vals : list (option Q))
    (startSec endSec : Z) : list (Z * option Q) :=
  match xVals, vals with
  | x :: xs, v :: vs =>
      if (startSec <=? x) && (x <=? endSec)
      then (x, v) :: pointsInWindow xs vs startSec endSec
      else pointsInWindow xs vs startSec endSec
  | _, _ => []
  end.

Definition samplesInWindow (xVals : list Z) (vals : list (option Q))
    (startSec endSec : Z) : list Q :=
  finiteOnly (map snd (pointsInWindow xVals vals startSec endSec)).

Definition firstSample (l : list Q) : option Q := hd_error l.
Definition lastSample (l : list Q) : option Q := hd_error (rev l).

(** The trapezoid sum of the fallback, read from its formula: over the
    adjacent samples of a series of points [(time, power)]. *)
Fixpoint trapezoidSum (pts : list (Z * option Q)) : Q :=
  match pts with
  | a :: tl =>
      match tl with
      | b :: _ =>
          match snd a, snd b with
          | Some pa, Some pb =>
              if fst a <? fst b
              then ((pb + pa) / 2 * inject_Z (fst b - fst a)
                    + trapezoidSum tl)%Q
              else trapezoidSum tl
          | _, _ => trapezoidSum tl
          end
      | [] => 0%Q
      end
  | [] => 0%Q
  end.

(** The adjacent pairs that contribute a term to the trapezoid sum. *)
Fixpoint trapezoidTerms (pts : list (Z * option Q)) : list Q :=
  match pts with
  | a :: tl =>
      match tl with
      | b :: _ =>
          match snd a, snd b with
          | Some pa, Some pb =>
              if fst a <? fst b
              then ((pb + pa) / 2 * inject_Z (fst b - fst a))%Q
                   :: trapezoidTerms tl
              else trapezoidTerms tl
          | _, _ => trapezoidTerms tl
          end
      | [] => []
      end
  | [] => []
  end.

(** The data model's series: three index-aligned sequences of the same
    length, in non-decreasing order of time. *)
Definition aligned (s : Series) : Prop :=
  StronglySorted Z.le (xVals s)
  /\ List.length (yVals s) = List.length (xVals s)
  /\ List.length (eVals s) = List.length (xVals s).

Definition inWindow (startSec endSec x : Z) : Prop :=
  startSec <= x <= endSec.


(** Equality of two optional numbers, as numbers. *)
Definition sameNumber (a b : option Q) : Prop :=
  match a, b with
  | Some x, Some y => (x == y)%Q
  | None, None => True
  | _, _ => False
  end.


Record Selection := { sel_start : Z; sel_end : Z }.

(** [applySelectionRange(startMs, endMs, label, clampToData)]: the range
    that is committed to [selection], or [None] when the function returns
    before committing.  Both arguments are finite here; the caller below
    handles the others. *)
Definition applySelectionRange (xVals : list Z) (startMs endMs : Z)
    (clampToData : bool) : option Selection :=
  let '(startMs, endMs) :=
    if clampToData && (0 <? Z.of_nat (List.length xVals)) then
      let minMs := hd 0 xVals * 1000 in
      let maxMs := last xVals 0 * 1000 in
      let s := Z.max minMs (Z.min startMs maxMs) in
      let e := Z.max minMs (Z.min endMs maxMs) in
      let e := if e <=? s then Z.min maxMs (s + 1) else e in
      (s, e)
    else (startMs, endMs) in
  if endMs <=? startMs then None
  else Some {| sel_start := startMs; sel_end := endMs |}.

(** [finalizePointerSelection(px)]: [startMs] is the instant captured at
    pointer-down, [endMs] the instant under the pointer at release
    ([None] when the pixel does not map to a finite time). *)
Definition finalizePointerSelection (xVals : list Z)
    (startMs endMs : option Z) : option Selection :=
  match startMs, endMs with
  | Some startMs, Some endMs =>
      let from := Z.min startMs endMs in
      let to := Z.max startMs endMs in
      let to := if to =? from then from + 1 else to in
      applySelectionRange xVals from to true
  | _, _ => None
  end.

(** Clamping of an instant to the loaded series' time span. *)
Definition clampMs (minMs maxMs t : Z) : Z := Z.max minMs (Z.min t maxMs).

End Dashboard.

(** ** Compare page: the two periods *)

Module Compare.

Record Range := { startMs : Z; endMs : Z }.

(** The fields of [GET stats] that [renderDiff] reads. *)
Record PeriodStats := {
  energy_used_kwh : option Q;
  avg_power_watts : option Q
}.

(** [getEndOfTodayMs()], at the moment [now] in the zone [tz]. *)
Definition getEndOfTodayMs (tz now : Z) : Z :=
  let startOfTomorrow :=
    JSDate.newDate tz (JSDate.getFullYear tz now) (JSDate.getMonth tz now)
                   (JSDate.getDate tz now + 1) 0 0 0 0 in
  startOfTomorrow - 1.

(** [trimRangeToToday(range)]; the bounds of a [Range] are finite. *)
Definition trimRangeToToday (tz now : Z) (range : option Range)
    : option Range :=
  match range with
  | None => None
  | Some range =>
      let endOfToday := getEndOfTodayMs tz now in
      Some {| startMs := startMs range;
              endMs := Z.min (endMs range) endOfToday |}
  end.

(** The state of a range calendar made by [createRangeCalendar]: the two
    dates (time values of [Date] objects) and which of them the next click
    sets. *)
Inductive Step := StepStart | StepEnd.

Record Calendar := {
  startDate : option Z;
  endDate : option Z;
  step : Step
}.

(** [new Date(d.getFullYear(), d.getMonth(), d.getDate())] *)
Definition dateOnly (tz d : Z) : Z :=
  JSDate.newDate tz (JSDate.getFullYear tz d) (JSDate.getMonth tz d)
                 (JSDate.getDate tz d) 0 0 0 0.

Definition createRangeCalendar (tz : Z) (initialStart initialEnd : option Z)
    : Calendar :=
  let startDate := option_map (dateOnly tz) initialStart in
  let endDate := option_map (dateOnly tz) initialEnd in
  {| startDate := startDate; endDate := endDate;
     step := match startDate, endDate with
             | Some _, None => StepEnd
             | _, _ => StepStart
             end |}.

(** The click handler of a day button whose [data-date] is [y-m-day]. *)
Definition clickDay (tz y m day : Z) (c : Calendar) : Calendar :=
  let clicked := JSDate.newDate tz y (m - 1) day 0 0 0 0 in
  match step c with
  | StepStart =>
      {| startDate := Some clicked; endDate := None; step := StepEnd |}
  | StepEnd =>
      match startDate c with
      | Some sd =>
          if clicked <? sd
          then {| startDate := Some clicked; endDate := Some sd;
                  step := StepStart |}
          else {| startDate := Some sd; endDate := Some clicked;
                  step := StepStart |}
      | None =>
          {| startDate := None; endDate := Some clicked; step := StepStart |}
      end
  end.

(** [getRange()] *)
Definition getRange (tz : Z) (c : Calendar) : option Range :=
  match startDate c, endDate c with
  | Some sd, Some ed =>
      let s := JSDate.newDate tz (JSDate.getFullYear tz sd)
                 (JSDate.getMonth tz sd) (JSDate.getDate tz sd) 0 0 0 0 in
      let e := JSDate.newDate tz (JSDate.getFullYear tz ed)
                 (JSDate.getMonth tz ed) (JSDate.getDate tz ed) 23 59 59 999 in
      Some {| startMs := s; endMs := e |}
  | _, _ => None
  end.

(** A year that [new Date(year, ...)] takes as it is (not as 1900 + year). *)
Definition fullYear (y : Z) : Prop := ~ (0 <= y <= 99).

(** [daysInRange(range)]: [Math.ceil((endMs - startMs) / 86400000)]. *)
Definition daysInRange (range : option Range) : option Z :=
  match range with
  | None => None
  | Some range => Some (- ((startMs range - endMs range) / (24 * 60 * 60 * 1000)))
  end.

(** [v !== 0] *)
Definition nonZero (v : Q) : bool := negb (Qeq_bool v 0).

(** The numbers that [renderDiff] hands to [setDiffBox]. *)
Record Diff := {
  diffKwh : option Q;
  diffPct : option Q;
  diffDailyAvg : option Q;
  dailyAvgPct : option Q;
  diffPowerAvg : option Q;
  powerPct : option Q;
  diffCost : option Q;
  costPct : option Q;
  diffCostPerDay : option Q;
  costPerDayPct : option Q
}.

Definition renderDiff (statsA statsB : option PeriodStats)
    (rangeA rangeB : option Range) (costPerKwh : Q) : Diff :=
  let a := match statsA with Some st => energy_used_kwh st | None => None end in
  let b := match statsB with Some st => energy_used_kwh st | None => None end in
  let diffKwh :=
    match a, b with
    | Some a, Some b => Some (b - a)%Q
    | _, _ => None
    end in
  let diffPct :=
    match a, b with
    | Some a, Some b =>
        if nonZero a then Some ((b - a) / a * 100)%Q else None
    | _, _ => None
    end in
  let diffCost :=
    match diffKwh with
    | Some diffKwh => Some (diffKwh * costPerKwh)%Q
    | None => None
    end in
  let daysA := daysInRange rangeA in
  let daysB := daysInRange rangeB in
  let dailyAvgA :=
    match a, daysA with
    | Some a, Some daysA =>
        if 0 <? daysA then Some (a / inject_Z daysA)%Q else None
    | _, _ => None
    end in
  let dailyAvgB :=
    match b, daysB with
    | Some b, Some daysB =>
        if 0 <? daysB then Some (b / inject_Z daysB)%Q else None
    | _, _ => None
    end in
  let diffDailyAvg :=
    match dailyAvgA, dailyAvgB with
    | Some dailyAvgA, Some dailyAvgB => Some (dailyAvgB - dailyAvgA)%Q
    | _, _ => None
    end in
  let dailyAvgPct :=
    match dailyAvgA, dailyAvgB with
    | Some dailyAvgA, Some dailyAvgB =>
        if nonZero dailyAvgA
        then Some ((dailyAvgB - dailyAvgA) / dailyAvgA * 100)%Q else None
    | _, _ => None
    end in
  let avgA := match statsA with Some st => avg_power_watts st | None => None end in
  let avgB := match statsB with Some st => avg_power_watts st | None => None end in
  let diffPowerAvg :=
    match avgA, avgB with
    | Some avgA, Some avgB => Some (avgB - avgA)%Q
    | _, _ => None
    end in
  let powerPct :=
    match avgA, avgB with
    | Some avgA, Some avgB =>
        if nonZero avgA then Some ((avgB - avgA) / avgA * 100)%Q else None
    | _, _ => None
    end in
  let costA := match a with Some a => Some (a * costPerKwh)%Q | None => None end in
  let costB := match b with Some b => Some (b * costPerKwh)%Q | None => None end in
  let costPct :=
    match costA, costB with
    | Some costA, Some costB =>
        if nonZero costA then Some ((costB - costA) / costA * 100)%Q else None
    | _, _ => None
    end in
  let avgCostPerDayA :=
    match costA, daysA with
    | Some costA, Some daysA =>
        if 0 <? daysA then Some (costA / inject_Z daysA)%Q else None
    | _, _ => None
    end in
  let avgCostPerDayB :=
    match costB, daysB with
    | Some costB, Some daysB =>
        if 0 <? daysB then Some (costB / inject_Z daysB)%Q else None
    | _, _ => None
    end in
  let diffCostPerDay :=
    match avgCostPerDayA, avgCostPerDayB with
    | Some avgCostPerDayA, Some avgCostPerDayB =>
        Some (avgCostPerDayB - avgCostPerDayA)%Q
    | _, _ => None
    end in
  let costPerDayPct :=
    match avgCostPerDayA, avgCostPerDayB with
    | Some avgCostPerDayA, Some avgCostPerDayB =>
        if nonZero avgCostPerDayA
        then Some ((avgCostPerDayB - avgCostPerDayA) / avgCostPerDayA * 100)%Q
        else None
    | _, _ => None
    end in
  {| diffKwh := diffKwh; diffPct := diffPct;
     diffDailyAvg := diffDailyAvg; dailyAvgPct := dailyAvgPct;
     diffPowerAvg := diffPowerAvg; powerPct := powerPct;
     diffCost := diffCost; costPct := costPct;
     diffCostPerDay := diffCostPerDay; costPerDayPct := costPerDayPct |}.

(** The comparison, read from its rule.  The five metrics of a period:
    energy, daily average energy, average power, cost and cost per day
    (the per-day ones exist for a range of at least one started day). *)
Definition perDay (v : option Q) (range : option Range) : option Q :=
  match v, daysInRange range with
  | Some v, Some days => if 0 <? days then Some (v / inject_Z days)%Q else None
  | _, _ => None
  end.

Definition periodMetrics (stats : option PeriodStats) (range : option Range)
    (costPerKwh : Q) : list (option Q) :=
  let energy := match stats with Some st => energy_used_kwh st | None => None end in
  let power := match stats with Some st => avg_power_watts st | None => None end in
  let cost := option_map (fun v => (v * costPerKwh)%Q) energy in
  [energy; perDay energy range; power; cost; perDay cost range].

(** [diff = B - A] *)
Definition absoluteDiff (A B : option Q) : option Q :=
  match A, B with
  | Some a, Some b => Some (b - a)%Q
  | _, _ => None
  end.

(** [pctDiff = A != 0 ? diff/A*100 : null] *)
Definition percentDiff (A B : option Q) : option Q :=
  match A, B with
  | Some a, Some b => if nonZero a then Some ((b - a) / a * 100)%Q else None
  | _, _ => None
  end.

Definition pairwise (f : option Q -> option Q -> option Q)
    (As Bs : list (option Q)) : list (option Q) :=
  map (fun AB => f (fst AB) (snd AB)) (combine As Bs).

Definition absoluteDiffs (d : Diff) : list (option Q) :=
  [diffKwh d; diffDailyAvg d; diffPowerAvg d; diffCost d; diffCostPerDay d].

Definition percentDiffs (d : Diff) : list (option Q) :=
  [diffPct d; dailyAvgPct d; powerPct d; costPct d; costPerDayPct d].

Definition sameNumber (a b : option Q) : Prop :=
  match a, b with
  | Some x, Some y => (x == y)%Q
  | None, None => True
  | _, _ => False
  end.

Definition negated (a b : option Q) : Prop :=
  match a, b with
  | Some x, Some y => (y == - x)%Q
  | None, None => True
  | _, _ => False
  end.

(** Two values of a metric that are both present, nonzero and of the same
    sign; two percentages of opposite sign (or both 0). *)
Definition sameSign (A B : option Q) : Prop :=
  match A, B with
  | Some a, Some b => (0 < a * b)%Q
  | _, _ => False
  end.

Definition oppositeSign (p p' : option Q) : Prop :=
  match p, p' with
  | Some u, Some v => ((0 < u <-> v < 0) /\ (u < 0 <-> 0 < v))%Q
  | _, _ => False
  end.

Definition missingOrZero (A : option Q) : Prop :=
  match A with
  | Some a => (a == 0)%Q
  | None => True
  end.

End Compare.

(** ** Desktop dashboard: the persisted cost per kWh *)

Module CostConfig.

(** A JavaScript number that may be [NaN] or infinite: what [parseFloat]
    returns and [costPerKwh] holds. *)
Inductive Number :=
| NaN
| Infinity (negative : bool)
| Finite (q : Q).













Definition sameNumber (a b : Number) : Prop :=
  match a, b with
  | NaN, NaN => True
  | Infinity s, Infinity s' => s = s'
  | Finite x, Finite y => (x == y)%Q
  | _, _ => False
  end.

Definition negative (n : Number) : Prop :=
  match n with
  | NaN => False
  | Infinity s => s = true
  | Finite q => (q < 0)%Q
  end.

End CostConfig.

(** ** Mobile dashboard: the chart's fetch group *)

Module Mobile.

(** The variables of the page that [fetchChartData] and [hideChart] use,
    and the fetch groups in flight.  An [AbortController] is named by the
    order of its creation; [chartDays] is the request whose readings the
    chart shows. *)
Record State := {
  chartLoaded : bool;
  chartAbortController : option nat;
  controllers : nat;
  aborted : list nat;
  pending : list (nat * Z);
  chartDays : option Z
}.

(** [fetchChartData(days)] up to its [await]: a new controller replaces
    the one held by [chartAbortController], and the two fetches start. *)
Definition fetchChartData (days : Z) (st : State) : State :=
  let controller := controllers st in
  {| chartLoaded := chartLoaded st;
     chartAbortController := Some controller;
     controllers := S controller;
     aborted := aborted st;
     pending := pending st ++ [(controller, days)];
     chartDays := chartDays st |}.

Inductive Outcome := Fulfilled | Failed.

Definition isAborted (st : State) (controller : nat) : bool :=
  existsb (Nat.eqb controller) (aborted st).

(** [fetchChartData(days)] from its [await] on, when the fetch group of
    [controller] settles: rejected with an [AbortError] when the controller
    was aborted, else fulfilled or failed. *)
Definition fetchChartData_settled (controller : nat) (days : Z)
    (outcome : Outcome) (st : State) : State :=
  let pending' :=
    filter (fun f => negb (Nat.eqb (fst f) controller)) (pending st) in
  if isAborted st controller then
    {| chartLoaded := chartLoaded st; chartAbortController := None;
       controllers := controllers st; aborted := aborted st;
       pending := pending'; chartDays := chartDays st |}
  else
    match outcome with
    | Fulfilled =>
        {| chartLoaded := true; chartAbortController := None;
           controllers := controllers st; aborted := aborted st;
           pending := pending'; chartDays := Some days |}
    | Failed =>
        {| chartLoaded := false; chartAbortController := None;
           controllers := controllers st; aborted := aborted st;
           pending := pending'; chartDays := chartDays st |}
    end.

(** [hideChart()] *)
Definition hideChart (st : State) : State :=
  {| chartLoaded := false; chartAbortController := None;
     controllers := controllers st;
     aborted := match chartAbortController st with
                | Some controller => controller :: aborted st
                | None => aborted st
                end;
     pending := pending st; chartDays := None |}.

(** The events of the page: a click on the show/hide button, a change of
    the days input, and the settling of a fetch group in flight. *)
Inductive Event :=
| ClickShowChart (days : Z)
| DaysChange (days : Z)
| Settle (controller : nat) (outcome : Outcome).

Fixpoint daysOf (fs : list (nat * Z)) (controller : nat) : option Z :=
  match fs with
  | [] => None
  | (c, days) :: rest =>
      if Nat.eqb c controller then Some days else daysOf rest controller
  end.

Definition step (st : State) (ev : Event) : State :=
  match ev with
  | ClickShowChart days =>
      if chartLoaded st then hideChart st else fetchChartData days st
  | DaysChange days =>
      if chartLoaded st then fetchChartData days st else st
  | Settle controller outcome =>
      match daysOf (pending st) controller with
      | Some days => fetchChartData_settled controller days outcome st
      | None => st
      end
  end.

Definition run (st : State) (evs : list Event) : State :=
  fold_left step evs st.

(** A page whose chart shows the readings of a finished 7-day request. *)
Definition chartShown : State :=
  {| chartLoaded := true; chartAbortController := None; controllers := 1;
     aborted := []; pending := []; chartDays := Some 7 |}.

End Mobile.

(** ** Compare page: the charts' series and scales *)

Module CompareCharts.

(** [const alpha = 0.0001;] *)
Definition alpha : Q := 0.0001.

(** The loop of [calculateRollingAvg], from index [i] on, with the value
    of [ema] at that point: the entries [out[i]], [out[i+1]], ... *)
Fixpoint rollingFrom (ema : option Q) (yVals : list (option Q))
    : list (option Q) :=
  match yVals with
  | [] => []
  | Some y :: rest =>
      let ema :=
        match ema with
        | None => y
        | Some ema => (alpha * y + (1 - alpha) * ema)%Q
        end in
      Some ema :: rollingFrom (Some ema) rest
  | None :: rest => ema :: rollingFrom ema rest
  end.

(** [calculateRollingAvg(yVals)] *)
Definition calculateRollingAvg (yVals : list (option Q)) : list (option Q) :=
  rollingFrom None yVals.

(** The number of null entries at the head of an array. *)
Fixpoint leadingNulls (vals : list (option Q)) : nat :=
  match vals with
  | None :: rest => S (leadingNulls rest)
  | _ => O
  end.

Record MinMax := { min : Q; max : Q }.

(** One turn of the loop of [minMax], on the pair [(min, max)]; [None] is
    the infinite value that each of them starts with. *)
Definition minMaxStep (acc : option Q * option Q) (v : option Q)
    : option Q * option Q :=
  match v with
  | Some v =>
      let '(mn, mx) := acc in
      (match mn with
       | None => Some v
       | Some m => if Qle_bool m v then Some m else Some v
       end,
       match mx with
       | None => Some v
       | Some m => if Qle_bool v m then Some m else Some v
       end)
  | None => acc
  end.

(** [minMax(arr)] *)
Definition minMax (arr : list (option Q)) : option MinMax :=
  match fold_left minMaxStep arr (None, None) with
  | (Some mn, Some mx) =>
      if Qle_bool mn mx then Some {| min := mn; max := mx |} else None
  | _ => None
  end.

(** [combineMinMax(acc, next)] *)
Definition combineMinMax (acc next : option MinMax) : option MinMax :=
  match next with
  | None => acc
  | Some next =>
      match acc with
      | None => Some {| min := min next; max := max next |}
      | Some acc =>
          Some {| min := Qmin (min acc) (min next);
                  max := Qmax (max acc) (max next) |}
      end
  end.

(** What [buildChartData] returns. *)
Record ChartData := {
  xVals : list Z;
  yVals : list (option Q);
  eVals : list (option Q);
  dailyEnergyVals : list (option Q);
  typicalDailyEnergyVals : list (option Q);
  rollingAvgVals : list (option Q)
}.

Record Scales := {
  y : option MinMax;
  y2 : option MinMax;
  y3 : option MinMax
}.

(** [if (r) { if (r.min === r.max) r.max = r.min + 1; scales.s = r; }] *)
Definition widened (r : option MinMax) : option MinMax :=
  match r with
  | Some r =>
      if Qeq_bool (min r) (max r)
      then Some {| min := min r; max := (min r + 1)%Q |}
      else Some r
  | None => None
  end.

(** [getSharedScales(dataA, dataB)], for two chart data objects. *)
Definition getSharedScales (dataA dataB : ChartData) : Scales :=
  let yRange :=
    fold_left
      (fun acc d =>
         combineMinMax (combineMinMax acc (minMax (yVals d)))
                       (minMax (rollingAvgVals d)))
      [dataA; dataB] None in
  let y2Range :=
    fold_left (fun acc d => combineMinMax acc (minMax (eVals d)))
              [dataA; dataB] None in
  let y3Range :=
    fold_left
      (fun acc d =>
         combineMinMax (combineMinMax acc (minMax (dailyEnergyVals d)))
                       (minMax (typicalDailyEnergyVals d)))
      [dataA; dataB] None in
  {| y := widened yRange; y2 := widened y2Range; y3 := widened y3Range |}.

(** A scale holds every finite value of some arrays, over a range that is
    not empty; no scale when the arrays hold no finite value. *)
Definition scaleCovers (scale : option MinMax) (arrs : list (list (option Q)))
    : Prop :=
  match scale with
  | Some r =>
      (min r < max r)%Q
      /\ forall arr v, In arr arrs -> In (Some v) arr ->
                       (min r <= v <= max r)%Q
  | None => forall arr v, In arr arrs -> ~ In (Some v) arr
  end.

End CompareCharts.

(** * Properties *)

(** ** The calendar *)

Lemma daysFromCivil_epoch : JSDate.daysFromCivil 1970 0 1 = 0.
Proof. reflexivity. Qed.

(** Known dates: the leap day of 2000, the last day of 1969, and
    [new Date(2026, 10, 2, 12, 0, 0, 0)] one hour east of UTC, which is
    2026-11-02T11:00:00Z. *)
Example civilFromDays_leap_day : JSDate.civilFromDays 11016 = (2000, 1, 29).
Proof. reflexivity. Qed.

Example civilFromDays_before_epoch : JSDate.civilFromDays (-1) = (1969, 11, 31).
Proof. reflexivity. Qed.

Example newDate_noon :
  JSDate.newDate 3600000 2026 10 2 12 0 0 0 = 1793617200000.
Proof. reflexivity. Qed.

(** A day of month past the end of the month carries into the next month,
    and a two-digit year is read as 19xx. *)
Example newDate_carries :
  JSDate.newDate 0 2026 1 29 0 0 0 0 = JSDate.newDate 0 2026 2 1 0 0 0 0
  /\ JSDate.newDate 0 99 11 31 0 0 0 0 = JSDate.newDate 0 1999 11 31 0 0 0 0.
Proof. split; reflexivity. Qed.

Lemma all_from_spec f n : forall start,
  all_from f start n = true ->
  forall z, start <= z < start + Z.of_nat n -> f z = true.
Proof.
  induction n as [|k IH]; intros start H z Hz.
  - simpl in Hz. lia.
  - simpl in H. apply andb_true_iff in H. destruct H as [H0 Hk].
    destruct (Z.eq_dec z start) as [->|Hne]; [exact H0|].
    apply (IH (start + 1) Hk). lia.
Qed.

Lemma era_days_ok : all_from era_day_ok 0 (Z.to_nat 146097) = true.
Proof. vm_compute. reflexivity. Qed.

Lemma era_day_bounds doe :
  0 <= doe < 146097 ->
  let yoe := (doe - doe / 1460 + doe / 36524 - doe / 146096) / 365 in
  let doy := doe - (365 * yoe + yoe / 4 - yoe / 100) in
  let mp := (5 * doy + 2) / 153 in
  0 <= yoe <= 399 /\ 0 <= mp <= 11.
Proof.
  intros Hdoe.
  assert (H : era_day_ok doe = true).
  { apply (all_from_spec _ _ _ era_days_ok). rewrite Z2Nat.id; lia. }
  unfold era_day_ok in H. cbv zeta in *.
  rewrite !andb_true_iff in H. lia.
Qed.

Lemma civil_roundtrip z :
  let '(y, m0, d) := JSDate.civilFromDays z in JSDate.daysFromCivil y m0 d = z.
Proof.
  unfold JSDate.civilFromDays. cbv zeta.
  set (z' := z + 719468). set (era := z' / 146097).
  set (doe := z' - era * 146097).
  assert (Hdoe : 0 <= doe < 146097)
    by (subst doe era; Z.div_mod_to_equations; lia).
  pose proof (era_day_bounds doe Hdoe) as Hb. cbv zeta in Hb.
  set (yoe := (doe - doe / 1460 + doe / 36524 - doe / 146096) / 365) in *.
  set (doy := doe - (365 * yoe + yoe / 4 - yoe / 100)) in *.
  set (mp := (5 * doy + 2) / 153) in *.
  destruct Hb as [Hy Hm].
  unfold JSDate.daysFromCivil. cbv zeta.
  assert (Hera : forall k, 0 <= k <= 399 -> (k + era * 400) / 400 = era).
  { intros k Hk. rewrite Z.div_add by lia. rewrite Z.div_small by lia. lia. }
  destruct (mp <? 10) eqn:E10.
  - replace (mp + 3 - 1 + 1) with (mp + 3) by lia.
    destruct (mp + 3 <=? 2) eqn:E2; [lia|].
    destruct (2 <? mp + 3) eqn:E3; [|lia].
    rewrite (Hera yoe Hy).
    replace (mp + 3 - 3) with mp by lia.
    replace (yoe + era * 400 - era * 400) with yoe by lia.
    subst doy doe z'. lia.
  - replace (mp - 9 - 1 + 1) with (mp - 9) by lia.
    destruct (mp - 9 <=? 2) eqn:E2; [|lia].
    destruct (2 <? mp - 9) eqn:E3; [lia|].
    replace (yoe + era * 400 + 1 - 1) with (yoe + era * 400) by lia.
    rewrite (Hera yoe Hy).
    replace (mp - 9 + 9) with mp by lia.
    replace (yoe + era * 400 - era * 400) with yoe by lia.
    subst doy doe z'. lia.
Qed.

(** ** Selection by pointer drag *)

Section SelectionFacts.
Import Dashboard.

Lemma applySelectionRange_ordered xVals startMs endMs clampToData sel :
  applySelectionRange xVals startMs endMs clampToData = Some sel ->
  sel_start sel < sel_end sel.
Proof.
  unfold applySelectionRange.
  destruct (clampToData && _); cbv zeta;
    match goal with |- context [if ?c <=? ?d then None else _] =>
      destruct (Z.leb_spec c d) as [Hle|Hlt] end;
    intros Hsel; inversion Hsel; subst; simpl; lia.
Qed.

(** What a drag commits, by the position of its clamped endpoints. *)
Lemma finalizePointerSelection_cases x0 xs startMs endMs :
  let xVals := x0 :: xs in
  let minMs := hd 0 xVals * 1000 in
  let maxMs := last xVals 0 * 1000 in
  let lo := clampMs minMs maxMs (Z.min startMs endMs) in
  let hi := clampMs minMs maxMs (Z.max startMs endMs) in
  minMs <= maxMs ->
  finalizePointerSelection xVals (Some startMs) (Some endMs) =
    if lo <? hi then Some {| sel_start := lo; sel_end := hi |}
    else if lo <? maxMs then Some {| sel_start := lo; sel_end := lo + 1 |}
    else None.
Proof.
  intros xVals minMs maxMs lo hi Hspan.
  unfold finalizePointerSelection, applySelectionRange.
  replace (true && (0 <? Z.of_nat (List.length xVals))) with true
    by (subst xVals; simpl List.length; symmetry; apply Z.ltb_lt; lia).
  fold minMs maxMs. cbv zeta.
  subst lo hi. unfold clampMs.
  set (from := Z.min startMs endMs). set (to := Z.max startMs endMs).
  assert (Hft : from <= to) by (subst from to; lia).
  clearbody from to minMs maxMs.
  repeat match goal with
         | |- context [if ?a =? ?b then _ else _] => destruct (Z.eqb_spec a b)
         | |- context [if ?a <=? ?b then _ else _] => destruct (Z.leb_spec a b)
         | |- context [if ?a <? ?b then _ else _] => destruct (Z.ltb_spec a b)
         | H : context [if ?a <=? ?b then _ else _] |- _ =>
             destruct (Z.leb_spec a b)
         end; try reflexivity; try lia; f_equal; f_equal; lia.
Qed.

End SelectionFacts.

(** C5 (as amended).  With a loaded, time-ordered series, every range that a
    drag commits has [end > start] and lies inside the series' time span;
    it is the drag's [min, max] clamped to the span when the clamped
    endpoints differ; when they coincide at an instant before the series'
    last instant it is the 1 ms range starting there; and when they
    coincide at the series' last instant nothing is committed. *)
Theorem drag_commit_clamped x0 xs startMs endMs :
  let xVals := x0 :: xs in
  let minMs := hd 0 xVals * 1000 in
  let maxMs := last xVals 0 * 1000 in
  let lo := Dashboard.clampMs minMs maxMs (Z.min startMs endMs) in
  let hi := Dashboard.clampMs minMs maxMs (Z.max startMs endMs) in
  let committed :=
    Dashboard.finalizePointerSelection xVals (Some startMs) (Some endMs) in
  minMs <= maxMs ->
  (forall sel, committed = Some sel ->
     Dashboard.sel_start sel < Dashboard.sel_end sel
     /\ minMs <= Dashboard.sel_start sel /\ Dashboard.sel_end sel <= maxMs)
  /\ (lo < hi ->
      committed = Some {| Dashboard.sel_start := lo; Dashboard.sel_end := hi |})
  /\ (lo = hi -> lo < maxMs ->
      committed =
        Some {| Dashboard.sel_start := lo; Dashboard.sel_end := lo + 1 |})
  /\ (lo = hi -> lo = maxMs -> committed = None).
Proof.
  intros xVals minMs maxMs lo hi committed Hspan.
  pose proof (finalizePointerSelection_cases x0 xs startMs endMs Hspan) as Hc.
  fold xVals minMs maxMs lo hi committed in Hc.
  assert (Hlo : minMs <= lo <= maxMs) by (subst lo; unfold Dashboard.clampMs; lia).
  assert (Hhi : minMs <= hi <= maxMs) by (subst hi; unfold Dashboard.clampMs; lia).
  clearbody committed lo hi minMs maxMs.
  split; [|split; [|split]].
  - intros sel H. rewrite Hc in H.
    destruct (Z.ltb_spec lo hi); [|destruct (Z.ltb_spec lo maxMs)];
      inversion H; subst; simpl; lia.
  - intros Hlt. rewrite Hc.
    destruct (Z.ltb_spec lo hi); [reflexivity|lia].
  - intros Heq Hlt. rewrite Hc.
    destruct (Z.ltb_spec lo hi); [lia|].
    destruct (Z.ltb_spec lo maxMs); [reflexivity|lia].
  - intros Heq Hmax. rewrite Hc.
    destruct (Z.ltb_spec lo hi); [lia|].
    destruct (Z.ltb_spec lo maxMs); [lia|reflexivity].
Qed.

Lemma drag_commit_clamped_witness :
  0 * 1000 <= 3600 * 1000 /\
  Dashboard.finalizePointerSelection [0; 3600] (Some 5000) (Some 5000) =
    Some {| Dashboard.sel_start := 5000; Dashboard.sel_end := 5001 |}.
Proof.
  split; [lia|].
  refine (proj1 (proj2 (proj2 (drag_commit_clamped 0 [3600] 5000 5000 _))) _ _);
    vm_compute; congruence.
Defined.

(** C5, counterexample: a drag whose two endpoints are the series' last
    instant commits no range at all. *)
Lemma drag_at_last_instant_commits_nothing :
  Dashboard.finalizePointerSelection [0; 3600] (Some 3600000) (Some 3600000)
  = None.
Proof. reflexivity. Qed.

(** ** Window statistics *)

Section WindowFacts.
Import Dashboard.

Lemma Forall_firstn {A} (P : A -> Prop) n (l : list A) :
  Forall P l -> Forall P (firstn n l).
Proof.
  intros H. rewrite <- (firstn_skipn n l) in H.
  apply Forall_app in H. apply H.
Qed.

Lemma Forall_skipn {A} (P : A -> Prop) n (l : list A) :
  Forall P l -> Forall P (skipn n l).
Proof.
  intros H. rewrite <- (firstn_skipn n l) in H.
  apply Forall_app in H. apply H.
Qed.

Lemma find_i0_split xs startSec :
  StronglySorted Z.le xs ->
  let i0 := find_i0 xs startSec in
  (i0 <= List.length xs)%nat
  /\ Forall (fun x => x < startSec) (firstn i0 xs)
  /\ Forall (fun x => startSec <= x) (skipn i0 xs).
Proof.
  induction 1 as [|x rest Hs IH Hx]; simpl.
  - repeat split; auto with arith.
  - destruct (Z.ltb_spec x startSec) as [Hlt|Hge]; simpl.
    + destruct IH as (Hl & Hf & Hk). repeat split; auto with arith.
    + repeat split; auto with arith. constructor; [exact Hge|].
      eapply Forall_impl; [|exact Hx]. simpl. intros; lia.
Qed.

Lemma sorted_firstn_le xs i x :
  StronglySorted Z.le xs -> nth_error xs i = Some x ->
  Forall (fun y => y <= x) (firstn (S i) xs).
Proof.
  intros Hs. revert i. induction Hs as [|a rest Hs IH Ha]; intros i Hi.
  - destruct i; discriminate.
  - destruct i as [|i]; simpl in Hi.
    + inversion Hi; subst. simpl. repeat constructor. lia.
    + change (firstn (S (S i)) (a :: rest)) with (a :: firstn (S i) rest).
      constructor; [|apply IH; exact Hi].
      apply nth_error_In in Hi. rewrite Forall_forall in Ha. auto.
Qed.

Lemma find_n1_split xs endSec : forall k,
  StronglySorted Z.le xs ->
  (k <= List.length xs)%nat ->
  Forall (fun x => endSec < x) (skipn k xs) ->
  let n1 := find_n1 xs endSec k in
  (n1 <= k)%nat
  /\ Forall (fun x => x <= endSec) (firstn n1 xs)
  /\ Forall (fun x => endSec < x) (skipn n1 xs).
Proof.
  induction k as [|i1 IH]; intros Hs Hk Hgt; simpl.
  - repeat split; auto.
  - destruct (nth_error xs i1) as [x|] eqn:Hx.
    + destruct (Z.ltb_spec endSec x) as [Hlt|Hge].
      * assert (Hgt' : Forall (fun y => endSec < y) (skipn i1 xs)).
        { pose proof (nth_error_split xs i1 Hx) as (l1 & l2 & -> & <-).
          rewrite skipn_app, Nat.sub_diag, skipn_all. simpl.
          constructor; [exact Hlt|].
          replace l2 with (skipn (S (List.length l1)) (l1 ++ x :: l2)); [exact Hgt|].
          rewrite skipn_app, skipn_all2 by lia.
          replace (S (List.length l1) - List.length l1)%nat with 1%nat by lia.
          reflexivity. }
        destruct (IH Hs (Nat.lt_le_incl _ _ Hk) Hgt') as (Hl & Hf & Hg).
        repeat split; auto with arith.
      * repeat split; auto.
        eapply Forall_impl; [|apply (sorted_firstn_le xs i1 x Hs Hx)].
        simpl. intros; lia.
    + apply nth_error_None in Hx. lia.
Qed.

Lemma pointsInWindow_app xs1 vs1 xs2 vs2 s e :
  List.length xs1 = List.length vs1 ->
  pointsInWindow (xs1 ++ xs2) (vs1 ++ vs2) s e =
  pointsInWindow xs1 vs1 s e ++ pointsInWindow xs2 vs2 s e.
Proof.
  revert vs1. induction xs1 as [|x xs1 IH]; intros [|v vs1] Hlen;
    try discriminate; [reflexivity|].
  simpl in Hlen. injection Hlen as Hlen. simpl.
  destruct (_ && _); rewrite (IH _ Hlen); reflexivity.
Qed.

Lemma pointsInWindow_outside xs vs s e :
  Forall (fun x => ~ inWindow s e x) xs -> pointsInWindow xs vs s e = [].
Proof.
  intros H. revert vs. induction H as [|x xs Hx _ IH]; intros [|v vs];
    try reflexivity.
  simpl.
  destruct (Z.leb_spec s x), (Z.leb_spec x e); simpl; try apply IH.
  exfalso. apply Hx. split; assumption.
Qed.

Lemma pointsInWindow_inside xs vs s e :
  Forall (inWindow s e) xs -> List.length xs = List.length vs ->
  pointsInWindow xs vs s e = combine xs vs.
Proof.
  intros H. revert vs. induction H as [|x xs Hx _ IH]; intros [|v vs] Hlen;
    try discriminate; [reflexivity|].
  simpl in Hlen. injection Hlen as Hlen. simpl.
  destruct Hx as [H1 H2].
  apply Z.leb_le in H1, H2. rewrite H1, H2. simpl. f_equal. apply IH; exact Hlen.
Qed.

Lemma map_snd_combine {A B} (l : list A) (l' : list B) :
  List.length l = List.length l' -> map snd (combine l l') = l'.
Proof.
  revert l'. induction l as [|a l IH]; intros [|b l'] Hlen;
    try discriminate; [reflexivity|].
  simpl. f_equal. apply IH. simpl in Hlen. lia.
Qed.

(** The three segments of a sorted series cut by the two scans. *)
Lemma list_segments {A} (l : list A) i n :
  (i <= n)%nat -> l = firstn i l ++ slice l i n ++ skipn n l.
Proof.
  intros Hin. unfold slice.
  rewrite <- (firstn_skipn i l) at 1. f_equal.
  rewrite <- (firstn_skipn (n - i) (skipn i l)) at 1. f_equal.
  rewrite skipn_skipn. f_equal. lia.
Qed.

Lemma slice_length {A} (l : list A) i n :
  (i <= n)%nat -> (n <= List.length l)%nat -> List.length (slice l i n) = (n - i)%nat.
Proof.
  intros. unfold slice. rewrite length_firstn, length_skipn. lia.
Qed.

(** The index scans cut out exactly the window. *)
Lemma scans_bounds xs s e :
  StronglySorted Z.le xs ->
  let i0 := find_i0 xs s in
  let n1 := find_n1 xs e (List.length xs) in
  (i0 <= List.length xs)%nat /\ (n1 <= List.length xs)%nat
  /\ Forall (fun x => x < s) (firstn i0 xs)
  /\ Forall (fun x => s <= x) (skipn i0 xs)
  /\ Forall (fun x => x <= e) (firstn n1 xs)
  /\ Forall (fun x => e < x) (skipn n1 xs).
Proof.
  intros Hs i0 n1.
  destruct (find_i0_split xs s Hs) as (H1 & H2 & H3).
  destruct (find_n1_split xs e (List.length xs) Hs (le_n _)) as (H4 & H5 & H6).
  { rewrite skipn_all. constructor. }
  repeat split; assumption.
Qed.

Lemma slice_in_window xs s e :
  StronglySorted Z.le xs ->
  let i0 := find_i0 xs s in
  let n1 := find_n1 xs e (List.length xs) in
  Forall (inWindow s e) (slice xs i0 n1).
Proof.
  intros Hs i0 n1.
  destruct (scans_bounds xs s e Hs) as (_ & _ & _ & Hge & Hle & _).
  fold i0 n1 in Hge, Hle.
  unfold slice. apply Forall_forall. intros x Hx. split.
  - apply (Forall_firstn _ (n1 - i0)) in Hge.
    rewrite Forall_forall in Hge. apply Hge. exact Hx.
  - destruct (Nat.le_gt_cases n1 i0) as [Hle'|Hlt].
    + replace (n1 - i0)%nat with 0%nat in Hx by lia. destruct Hx.
    + rewrite firstn_skipn_comm in Hx.
      replace (i0 + (n1 - i0))%nat with n1 in Hx by lia.
      apply (Forall_skipn _ i0) in Hle.
      rewrite Forall_forall in Hle. apply Hle. exact Hx.
Qed.

Lemma window_nonempty_scans xs s e x :
  StronglySorted Z.le xs -> In x xs -> inWindow s e x ->
  (find_i0 xs s < find_n1 xs e (List.length xs))%nat.
Proof.
  intros Hs Hin [Hsx Hxe].
  destruct (scans_bounds xs s e Hs) as (_ & _ & Hlt & _ & _ & Hgt).
  set (i0 := find_i0 xs s) in *.
  set (n1 := find_n1 xs e (List.length xs)) in *.
  destruct (Nat.le_gt_cases n1 i0) as [Hle|]; [|assumption].
  exfalso.
  rewrite <- (firstn_skipn n1 xs) in Hin. apply in_app_or in Hin.
  destruct Hin as [Hin|Hin].
  - assert (Hin' : In x (firstn i0 xs)).
    { rewrite <- (firstn_skipn n1 (firstn i0 xs)). apply in_or_app. left.
      rewrite firstn_firstn. replace (Nat.min n1 i0) with n1 by lia. exact Hin. }
    rewrite Forall_forall in Hlt. specialize (Hlt x Hin'). simpl in Hlt. lia.
  - rewrite Forall_forall in Hgt. specialize (Hgt x Hin). simpl in Hgt. lia.
Qed.

Lemma window_empty_scans xs s e :
  StronglySorted Z.le xs ->
  Forall (fun x => ~ inWindow s e x) xs ->
  (find_n1 xs e (List.length xs) <= find_i0 xs s)%nat.
Proof.
  intros Hs Hout.
  pose proof (slice_in_window xs s e Hs) as Hin. cbv zeta in Hin.
  destruct (scans_bounds xs s e Hs) as (_ & Hn1 & _).
  set (i0 := find_i0 xs s) in *.
  set (n1 := find_n1 xs e (List.length xs)) in *.
  destruct (Nat.le_gt_cases n1 i0) as [|Hlt]; [assumption|exfalso].
  assert (Hlen : List.length (slice xs i0 n1) = (n1 - i0)%nat)
    by (apply slice_length; lia).
  destruct (slice xs i0 n1) as [|x sl] eqn:Hsl; [simpl in Hlen; lia|].
  inversion Hin as [|? ? Hx _]; subst.
  rewrite Forall_forall in Hout. apply (Hout x); [|exact Hx].
  rewrite (list_segments xs i0 n1) by lia. rewrite Hsl.
  apply in_or_app. right. left. reflexivity.
Qed.

(** The slice between the two scans holds exactly the points of the
    window. *)
Lemma slice_points xs vs s e :
  StronglySorted Z.le xs -> List.length vs = List.length xs ->
  let i0 := find_i0 xs s in
  let n1 := find_n1 xs e (List.length xs) in
  (i0 <= n1)%nat ->
  combine (slice xs i0 n1) (slice vs i0 n1) = pointsInWindow xs vs s e.
Proof.
  intros Hs Hlen i0 n1 Hle.
  destruct (scans_bounds xs s e Hs) as (Hi0 & Hn1 & Hlt & _ & _ & Hgt).
  pose proof (slice_in_window xs s e Hs) as Hwin.
  fold i0 n1 in Hi0, Hn1, Hlt, Hgt, Hwin. cbv zeta in Hwin.
  clearbody i0 n1.
  rewrite (list_segments xs i0 n1 Hle) at 2.
  rewrite (list_segments vs i0 n1 Hle) at 2.
  rewrite pointsInWindow_app
    by (rewrite !length_firstn; lia).
  rewrite pointsInWindow_app
    by (rewrite !slice_length; lia).
  rewrite (pointsInWindow_outside (firstn i0 xs)).
  2:{ eapply Forall_impl; [|exact Hlt]. unfold inWindow. simpl. intros; lia. }
  rewrite (pointsInWindow_outside (skipn n1 xs)).
  2:{ eapply Forall_impl; [|exact Hgt]. unfold inWindow. simpl. intros; lia. }
  rewrite pointsInWindow_inside.
  - simpl. rewrite app_nil_r. reflexivity.
  - exact Hwin.
  - rewrite !slice_length; lia.
Qed.

Lemma slice_samples xs vs s e :
  StronglySorted Z.le xs -> List.length vs = List.length xs ->
  let i0 := find_i0 xs s in
  let n1 := find_n1 xs e (List.length xs) in
  (i0 <= n1)%nat ->
  finiteOnly (slice vs i0 n1) = samplesInWindow xs vs s e.
Proof.
  intros Hs Hlen i0 n1 Hle. unfold samplesInWindow.
  rewrite <- (slice_points xs vs s e Hs Hlen Hle).
  destruct (scans_bounds xs s e Hs) as (Hi0 & Hn1 & _).
  rewrite map_snd_combine; [reflexivity|].
  rewrite !slice_length; fold i0 n1; lia.
Qed.

Lemma slice_cons {A} (l : list A) i n d :
  (i < n)%nat -> (n <= List.length l)%nat ->
  slice l i n = nth i l d :: slice l (S i) n.
Proof.
  intros Hin Hn. unfold slice.
  destruct (nth_error l i) as [a|] eqn:Ha.
  2:{ apply nth_error_None in Ha. lia. }
  rewrite (nth_error_nth _ _ d Ha).
  pose proof (nth_error_split l i Ha) as (l1 & l2 & -> & <-).
  rewrite !skipn_app, skipn_all.
  rewrite (skipn_all2 (n := S (List.length l1)) l1) by lia.
  replace (List.length l1 - List.length l1)%nat with 0%nat by lia.
  replace (S (List.length l1) - List.length l1)%nat with 1%nat by lia.
  replace (n - List.length l1)%nat with (S (n - S (List.length l1))) by lia.
  reflexivity.
Qed.

Lemma slice_nil {A} (l : list A) i n : (n <= i)%nat -> slice l i n = [].
Proof. intros H. unfold slice. replace (n - i)%nat with 0%nat by lia. reflexivity. Qed.

Lemma firstFinite_map es idxs :
  firstFinite es idxs =
  hd_error (finiteOnly (map (fun i => nth i es None) idxs)).
Proof.
  induction idxs as [|i rest IH]; [reflexivity|].
  simpl. destruct (nth i es None); [reflexivity|exact IH].
Qed.

Lemma map_nth_seq {A} (l : list A) d : forall n i,
  (i + n <= List.length l)%nat ->
  map (fun k => nth k l d) (seq i n) = slice l i (i + n).
Proof.
  induction n as [|n IH]; intros i Hi.
  - rewrite slice_nil by lia. reflexivity.
  - simpl. rewrite (slice_cons l i (i + S n) d) by lia. f_equal.
    rewrite IH by lia. f_equal. lia.
Qed.

Lemma finiteOnly_app l1 l2 :
  finiteOnly (l1 ++ l2) = finiteOnly l1 ++ finiteOnly l2.
Proof.
  induction l1 as [|[v|] l1 IH]; simpl; [reflexivity| |]; rewrite IH; reflexivity.
Qed.

Lemma finiteOnly_rev l : finiteOnly (rev l) = rev (finiteOnly l).
Proof.
  induction l as [|[v|] l IH]; simpl; [reflexivity| |];
    rewrite finiteOnly_app, IH; simpl; [reflexivity|apply app_nil_r].
Qed.

(** The two energy loops find the first and the last finite energy of
    the slice. *)
Lemma energy_endpoints es i0 n1 :
  (i0 <= n1)%nat -> (n1 <= List.length es)%nat ->
  firstFinite es (seq i0 (n1 - i0)) = firstSample (finiteOnly (slice es i0 n1))
  /\ firstFinite es (rev (seq i0 (n1 - i0)))
     = lastSample (finiteOnly (slice es i0 n1)).
Proof.
  intros Hle Hn. rewrite !firstFinite_map, map_rev, finiteOnly_rev.
  rewrite map_nth_seq by lia.
  replace (i0 + (n1 - i0))%nat with n1 by lia. split; reflexivity.
Qed.

Lemma trapezoidSum_cons2 a b rest :
  trapezoidSum (a :: b :: rest) =
  match snd a, snd b with
  | Some pa, Some pb =>
      if fst a <? fst b
      then ((pb + pa) / 2 * inject_Z (fst b - fst a)
            + trapezoidSum (b :: rest))%Q
      else trapezoidSum (b :: rest)
  | _, _ => trapezoidSum (b :: rest)
  end.
Proof. reflexivity. Qed.

(** The trapezoidal loop adds up the formula's terms over the slice. *)
Lemma trapezoid_loop xs ys : forall n i acc,
  List.length ys = List.length xs ->
  (1 <= i)%nat -> (i + n <= List.length xs)%nat ->
  (fold_left (trapezoidStep xs ys) (seq i n) acc ==
   acc + trapezoidSum (combine (slice xs (i - 1) (i + n))
                               (slice ys (i - 1) (i + n))))%Q.
Proof.
  induction n as [|n IH]; intros i acc Hlen Hi Hn.
  - rewrite (slice_cons xs (i - 1) (i + 0) 0) by lia.
    rewrite (slice_cons ys (i - 1) (i + 0) None) by lia.
    rewrite !(slice_nil _ (S (i - 1))) by lia. simpl. ring.
  - simpl seq. simpl fold_left.
    rewrite (IH (S i) _ Hlen) by lia.
    replace (S i - 1)%nat with i by lia.
    replace (S i + n)%nat with (i + S n)%nat by lia.
    rewrite (slice_cons xs (i - 1) (i + S n) 0) by lia.
    rewrite (slice_cons ys (i - 1) (i + S n) None) by lia.
    replace (S (i - 1)) with i by lia.
    rewrite (slice_cons xs i (i + S n) 0) by lia.
    rewrite (slice_cons ys i (i + S n) None) by lia.
    simpl combine. rewrite trapezoidSum_cons2.
    set (T := trapezoidSum (_ :: combine _ _)).
    cbn [fst snd]. unfold trapezoidStep.
    destruct (nth i ys None) as [yi|];
      destruct (nth (i - 1) ys None) as [yp|]; try ring.
    destruct (Z.ltb_spec 0 (nth i xs 0 - nth (i - 1) xs 0)),
             (Z.ltb_spec (nth (i - 1) xs 0) (nth i xs 0));
      try lia; ring.
Qed.





End WindowFacts.

Section StatsFacts.
Import Dashboard.

Lemma trapezoidTerms_none pts :
  trapezoidTerms pts = [] -> (trapezoidSum pts == 0)%Q.
Proof.
  induction pts as [|a tl IH]; [reflexivity|].
  destruct tl as [|b rest]; [reflexivity|].
  rewrite trapezoidSum_cons2.
  change (trapezoidTerms (a :: b :: rest)) with
    (match snd a, snd b with
     | Some pa, Some pb =>
         if fst a <? fst b
         then ((pb + pa) / 2 * inject_Z (fst b - fst a))%Q
              :: trapezoidTerms (b :: rest)
         else trapezoidTerms (b :: rest)
     | _, _ => trapezoidTerms (b :: rest)
     end).
  destruct (snd a), (snd b); try exact IH.
  destruct (fst a <? fst b); [discriminate|exact IH].
Qed.

(** What [computeStatsLocal] renders for a window of an aligned series
    that spans more than one second and holds a sample. *)
Lemma computeStatsLocal_window s costPerKwh startMs endMs x :
  let startSec := startMs / 1000 in
  let endSec := endMs / 1000 in
  let ps := samplesInWindow (xVals s) (yVals s) startSec endSec in
  let en := samplesInWindow (xVals s) (eVals s) startSec endSec in
  let pts := pointsInWindow (xVals s) (yVals s) startSec endSec in
  aligned s -> startSec < endSec ->
  In x (xVals s) -> inWindow startSec endSec x ->
  exists r,
    computeStatsLocal s costPerKwh startMs endMs = Some r
    /\ count r = List.length ps
    /\ minP r = minOf ps /\ maxP r = maxOf ps
    /\ avgP r = (if (List.length ps =? 0)%nat then None
                 else Some (sumOf ps / inject_Z (Z.of_nat (List.length ps)))%Q)
    /\ exists u, energyUsed r = Some u
       /\ match firstSample en, lastSample en with
          | Some eFirst, Some eLast => u = (eLast - eFirst)%Q
          | _, _ => (u == trapezoidSum pts / 3600000)%Q
          end.
Proof.
  intros startSec endSec ps en pts (Hs & Hy & He) Hsec Hin Hwin.
  pose proof (window_nonempty_scans _ _ _ _ Hs Hin Hwin) as Hlt.
  destruct (scans_bounds (xVals s) startSec endSec Hs) as (Hi0 & Hn1 & _).
  unfold computeStatsLocal. fold startSec endSec.
  set (i0 := find_i0 (xVals s) startSec) in *.
  set (n1 := find_n1 (xVals s) endSec (List.length (xVals s))) in *.
  assert (Hne : (List.length (xVals s) =? 0)%nat = false)
    by (apply Nat.eqb_neq; lia).
  rewrite Hne.
  replace (endSec <=? startSec) with false by (symmetry; apply Z.leb_gt; lia).
  replace (n1 <=? i0)%nat with false by (symmetry; apply Nat.leb_gt; lia).
  cbv zeta. simpl orb. cbv iota.
  pose proof (slice_samples _ _ startSec endSec Hs Hy (Nat.lt_le_incl _ _ Hlt)) as Hps.
  pose proof (slice_samples _ _ startSec endSec Hs He (Nat.lt_le_incl _ _ Hlt)) as Hen.
  fold i0 n1 ps in Hps. fold i0 n1 en in Hen.
  destruct (energy_endpoints (eVals s) i0 n1) as (Hfirst & Hlast); try lia.
  rewrite Hps, Hfirst, Hlast, Hen.
  eexists. split; [reflexivity|]. cbn [count minP maxP avgP energyUsed].
  repeat split.
  destruct (firstSample en) as [eFirst|], (lastSample en) as [eLast|];
    eexists; (split; [reflexivity|]); try reflexivity.
  all: pose proof (trapezoid_loop (xVals s) (yVals s) (n1 - S i0) (S i0) 0%Q Hy)
         as Hloop;
       replace (S i0 - 1)%nat with i0 in Hloop by lia;
       replace (S i0 + (n1 - S i0))%nat with n1 in Hloop by lia;
       rewrite Hloop by lia;
       pose proof (slice_points _ _ startSec endSec Hs Hy (Nat.lt_le_incl _ _ Hlt))
         as Hpts;
       fold i0 n1 pts in Hpts; rewrite Hpts; field.
Qed.

End StatsFacts.




(** C3 (as amended).  For an aligned series and a window that spans more
    than one whole second and holds a sample but no finite energy sample,
    the energy used is the trapezoidal integral of power over the window's
    adjacent samples, divided by 3600000; adjacent pairs with a null power
    or a time that does not advance contribute nothing.  The result is a
    number in every such case: when no pair contributes, it is 0. *)
Theorem window_stats_trapezoid_fallback s costPerKwh startMs endMs :
  let startSec := startMs / 1000 in
  let endSec := endMs / 1000 in
  let pts := Dashboard.pointsInWindow
               (Dashboard.xVals s) (Dashboard.yVals s) startSec endSec in
  Dashboard.aligned s ->
  startSec < endSec ->
  (exists x, In x (Dashboard.xVals s) /\ Dashboard.inWindow startSec endSec x) ->
  Dashboard.samplesInWindow
    (Dashboard.xVals s) (Dashboard.eVals s) startSec endSec = [] ->
  exists r u,
    Dashboard.computeStatsLocal s costPerKwh startMs endMs = Some r
    /\ Dashboard.energyUsed r = Some u
    /\ (u == Dashboard.trapezoidSum pts / 3600000)%Q
    /\ (Dashboard.trapezoidTerms pts = [] -> u == 0)%Q.
Proof.
  intros startSec endSec pts Hal Hsec (x & Hin & Hwin) Hnone.
  destruct (computeStatsLocal_window s costPerKwh startMs endMs x
              Hal Hsec Hin Hwin)
    as (r & Hr & _ & _ & _ & _ & u & Hu & Hen).
  fold startSec endSec in Hen. rewrite Hnone in Hen. simpl in Hen.
  fold pts in Hen.
  exists r, u. repeat split; try assumption.
  intros Hterms. rewrite Hen, (trapezoidTerms_none pts Hterms). reflexivity.
Qed.

Lemma window_stats_trapezoid_fallback_witness :
  let s := {| Dashboard.xVals := [0; 3600];
              Dashboard.yVals := [Some 100%Q; Some 200%Q];
              Dashboard.eVals := [None; None];
              Dashboard.usedDerived := false |} in
  Dashboard.aligned s
  /\ 0 / 1000 < 3600000 / 1000
  /\ exists r u,
       Dashboard.computeStatsLocal s 0.3102%Q 0 3600000 = Some r
       /\ Dashboard.energyUsed r = Some u
       /\ (u == 0.15)%Q.
Proof.
  intros s.
  assert (Hal : Dashboard.aligned s).
  { split; [|split; reflexivity].
    change (StronglySorted Z.le [0; 3600]).
    repeat (constructor; try lia). }
  assert (Hsec : 0 / 1000 < 3600000 / 1000) by (vm_compute; reflexivity).
  split; [exact Hal|]. split; [exact Hsec|].
  destruct (window_stats_trapezoid_fallback s 0.3102%Q 0 3600000 Hal Hsec)
    as (r & u & Hr & Hu & Hval & _).
  { exists 0. split; [left; reflexivity|]. split; vm_compute; discriminate. }
  { reflexivity. }
  exists r, u. split; [exact Hr|]. split; [exact Hu|].
  rewrite Hval. vm_compute. reflexivity.
Defined.

(** C3, counterexample: with neither an energy sample nor two power
    samples to integrate, the energy used is 0, not null. *)
Lemma energy_without_terms_is_zero :
  let s := Dashboard.fetchReadings
             [ {| Dashboard.t := 0; Dashboard.p := Some 100%Q;
                  Dashboard.e := None |};
               {| Dashboard.t := 3600000; Dashboard.p := Some 200%Q;
                  Dashboard.e := None |} ] in
  Dashboard.samplesInWindow (Dashboard.xVals s) (Dashboard.eVals s)
    (0 / 1000) (1800000 / 1000) = []
  /\ Dashboard.trapezoidTerms
       (Dashboard.pointsInWindow (Dashboard.xVals s) (Dashboard.yVals s)
          (0 / 1000) (1800000 / 1000)) = []
  /\ exists r u,
       Dashboard.computeStatsLocal s 0.3102%Q 0 1800000 = Some r
       /\ Dashboard.energyUsed r = Some u /\ (u == 0)%Q.
Proof.
  split; [reflexivity|]. split; [reflexivity|].
  eexists _, _. split; [reflexivity|]. split; [reflexivity|].
  vm_compute. reflexivity.
Qed.

(** C4 (as amended).  When the window holds no sample of a time-ordered
    series, [computeStatsLocal] returns before rendering anything: no
    statistics are produced and the ones on display stay as they were.
    When it does render, average, minimum and maximum are null exactly when
    the count is 0. *)
Theorem window_stats_empty_window s costPerKwh startMs endMs :
  let startSec := startMs / 1000 in
  let endSec := endMs / 1000 in
  (StronglySorted Z.le (Dashboard.xVals s) ->
   Forall (fun x => ~ Dashboard.inWindow startSec endSec x) (Dashboard.xVals s) ->
   Dashboard.computeStatsLocal s costPerKwh startMs endMs = None
   /\ forall shown,
        Dashboard.statsShownAfter shown s costPerKwh startMs endMs = shown)
  /\ (forall r,
        Dashboard.computeStatsLocal s costPerKwh startMs endMs = Some r ->
        (Dashboard.count r = 0%nat <-> Dashboard.avgP r = None)
        /\ (Dashboard.count r = 0%nat <-> Dashboard.minP r = None)
        /\ (Dashboard.count r = 0%nat <-> Dashboard.maxP r = None)).
Proof.
  intros startSec endSec. split.
  - intros Hs Hout.
    unfold Dashboard.statsShownAfter, Dashboard.computeStatsLocal.
    fold startSec endSec.
    destruct (_ || _); [split; reflexivity|]. cbv zeta.
    pose proof (window_empty_scans _ startSec endSec Hs Hout) as Hle.
    apply Nat.leb_le in Hle. rewrite Hle. split; reflexivity.
  - intros r. unfold Dashboard.computeStatsLocal.
    fold startSec endSec.
    destruct (_ || _); [discriminate|]. cbv zeta.
    destruct (_ <=? _)%nat; [discriminate|].
    set (ySlice := Dashboard.finiteOnly _).
    intros Hr. injection Hr as <-. simpl.
    destruct ySlice as [|v rest]; simpl; repeat split;
      intros; try reflexivity; discriminate.
Qed.

Lemma window_stats_empty_window_witness :
  let s := {| Dashboard.xVals := [0; 3600];
              Dashboard.yVals := [Some 100%Q; Some 200%Q];
              Dashboard.eVals := [Some 1.0%Q; Some 1.2%Q];
              Dashboard.usedDerived := false |} in
  StronglySorted Z.le (Dashboard.xVals s)
  /\ Forall (fun x => ~ Dashboard.inWindow (1000000 / 1000) (2000000 / 1000) x)
            (Dashboard.xVals s)
  /\ Dashboard.computeStatsLocal s 0.3102%Q 1000000 2000000 = None.
Proof.
  intros s.
  assert (Hs : StronglySorted Z.le (Dashboard.xVals s))
    by (simpl; repeat (constructor; try lia)).
  assert (Hout : Forall
            (fun x => ~ Dashboard.inWindow (1000000 / 1000) (2000000 / 1000) x)
            (Dashboard.xVals s)).
  { simpl. repeat constructor; unfold Dashboard.inWindow;
      intros [H1 H2]; vm_compute in H1, H2; congruence. }
  split; [exact Hs|]. split; [exact Hout|].
  exact (proj1 (proj1 (window_stats_empty_window s 0.3102%Q 1000000 2000000)
                 Hs Hout)).
Defined.

(** C4, counterexample: for a window between two samples nothing is
    returned, rather than a count of 0 with null fields; the count 2 of the
    window selected before stays on display. *)
Lemma empty_window_renders_nothing :
  let s := {| Dashboard.xVals := [0; 3600];
              Dashboard.yVals := [Some 100%Q; Some 200%Q];
              Dashboard.eVals := [Some 1.0%Q; Some 1.2%Q];
              Dashboard.usedDerived := false |} in
  let shown := Dashboard.computeStatsLocal s 0.3102%Q 0 3600000 in
  Dashboard.pointsInWindow (Dashboard.xVals s) (Dashboard.yVals s)
    (1000000 / 1000) (2000000 / 1000) = []
  /\ Dashboard.computeStatsLocal s 0.3102%Q 1000000 2000000 = None
  /\ option_map Dashboard.count
       (Dashboard.statsShownAfter shown s 0.3102%Q 1000000 2000000)
     = Some 2%nat.
Proof. repeat split. Qed.

(** ** Power derived from cumulative energy *)

Lemma derive_valid_pairs rows :
  Dashboard.derive rows =
  map (fun ab => (Dashboard.t (snd ab), Dashboard.pairWatts ab))
      (filter Dashboard.validPair (Dashboard.adjacentPairs rows)).
Proof.
  induction rows as [|a tl IH]; [reflexivity|].
  destruct tl as [|b rest]; [reflexivity|].
  change (Dashboard.derive (a :: b :: rest)) with
    (match Dashboard.derivedPoint a b with
     | Some pt => pt :: Dashboard.derive (b :: rest)
     | None => Dashboard.derive (b :: rest)
     end).
  change (Dashboard.adjacentPairs (a :: b :: rest)) with
    ((a, b) :: Dashboard.adjacentPairs (b :: rest)).
  rewrite IH.
  set (rec := filter Dashboard.validPair (Dashboard.adjacentPairs (b :: rest))).
  cbn [filter].
  unfold Dashboard.derivedPoint, Dashboard.validPair. cbn [fst snd].
  destruct (Dashboard.e a) as [ea|] eqn:Ha, (Dashboard.e b) as [eb|] eqn:Hb;
    try reflexivity.
  cbn [Dashboard.isFinite Dashboard.isNull negb andb].
  destruct (Z.ltb_spec (Dashboard.t a) (Dashboard.t b)) as [Hlt|Hge];
    [|reflexivity].
  replace (0 <? Dashboard.t b - Dashboard.t a) with true
    by (symmetry; apply Z.ltb_lt; lia).
  cbn [map]. apply f_equal2; [|reflexivity].
  unfold Dashboard.pairWatts. cbn [fst snd]. rewrite Ha, Hb. reflexivity.
Qed.

Lemma adjacentPairs_length rows :
  List.length (Dashboard.adjacentPairs rows) = (List.length rows - 1)%nat.
Proof.
  unfold Dashboard.adjacentPairs. rewrite length_combine.
  destruct rows as [|a rest]; cbn [List.tl List.length]; lia.
Qed.

Lemma all_null_power rows :
  Forall (fun r => Dashboard.p r = None) rows ->
  forallb (fun pt : Z * option Q => Dashboard.isNull (snd pt))
          (map (fun r => (Dashboard.t r, Dashboard.p r)) rows) = true.
Proof.
  induction 1 as [|r rows Hr _ IH]; [reflexivity|].
  simpl. rewrite Hr, IH. reflexivity.
Qed.

(** C2 (as amended).  When every reading has a null power and at least one
    adjacent pair of readings has both energies non-null and a time that
    advances, the power series is rebuilt from those pairs: one point per
    such pair, at the later time of the pair, of
    [max(0, (b.e - a.e) * 3.6e9 / (b.t - a.t))] watts; the other pairs
    yield no point, so that the series has [n - 1] points when all pairs
    qualify.  When no adjacent pair qualifies, the raw series is kept, with
    its null powers. *)
Theorem derived_power_series rows :
  let s := Dashboard.fetchReadings rows in
  let pairs := filter Dashboard.validPair (Dashboard.adjacentPairs rows) in
  Forall (fun r => Dashboard.p r = None) rows ->
  (pairs <> [] ->
   Dashboard.usedDerived s = true
   /\ Dashboard.xVals s = map (fun ab => Dashboard.t (snd ab) / 1000) pairs
   /\ Dashboard.yVals s = map Dashboard.pairWatts pairs)
  /\ (pairs = [] ->
      Dashboard.usedDerived s = false
      /\ Dashboard.xVals s = map (fun r => Dashboard.t r / 1000) rows
      /\ Dashboard.yVals s = map (fun r => Dashboard.p r) rows)
  /\ (forallb Dashboard.validPair (Dashboard.adjacentPairs rows) = true ->
      (2 <= List.length rows)%nat ->
      List.length (Dashboard.yVals s) = (List.length rows - 1)%nat
      /\ List.length (Dashboard.xVals s) = (List.length rows - 1)%nat).
Proof.
  intros s pairs Hnull.
  assert (Hs : s = Dashboard.fetchReadings rows) by reflexivity.
  unfold Dashboard.fetchReadings in Hs.
  rewrite (all_null_power rows Hnull), derive_valid_pairs in Hs.
  fold pairs in Hs. rewrite !length_map in Hs. cbv zeta in Hs.
  assert (Hderived : pairs <> [] ->
            Dashboard.usedDerived s = true
            /\ Dashboard.xVals s = map (fun ab => Dashboard.t (snd ab) / 1000) pairs
            /\ Dashboard.yVals s = map Dashboard.pairWatts pairs).
  { intros Hne.
    assert (Hrows : (0 <? Z.of_nat (List.length rows)) = true).
    { apply Z.ltb_lt. destruct rows; [|simpl; lia].
      exfalso. apply Hne. reflexivity. }
    assert (Hpairs : (0 <? Z.of_nat (List.length pairs)) = true).
    { apply Z.ltb_lt. destruct pairs; [contradiction|simpl; lia]. }
    rewrite Hrows, Hpairs in Hs. simpl andb in Hs. cbv iota in Hs.
    rewrite Hs. simpl. rewrite !map_map. repeat split. }
  split; [exact Hderived|]. split.
  - intros Hnil. rewrite Hnil in Hs. simpl in Hs.
    rewrite andb_false_r in Hs. rewrite Hs. simpl. rewrite !map_map.
    repeat split.
  - intros Hall Hlen.
    assert (Hp : pairs = Dashboard.adjacentPairs rows)
      by (apply forallb_filter_id; exact Hall).
    destruct Hderived as (_ & Hx & Hy).
    { rewrite Hp. intros Hnil.
      pose proof (adjacentPairs_length rows) as Hl. rewrite Hnil in Hl.
      simpl in Hl. lia. }
    rewrite Hx, Hy, !length_map, Hp. split; apply adjacentPairs_length.
Qed.

Lemma derived_power_series_witness :
  let rows := [ {| Dashboard.t := 0; Dashboard.p := None;
                   Dashboard.e := Some 1.0%Q |};
                {| Dashboard.t := 3600000; Dashboard.p := None;
                   Dashboard.e := Some 1.2%Q |} ] in
  Forall (fun r => Dashboard.p r = None) rows
  /\ Dashboard.xVals (Dashboard.fetchReadings rows) = [3600]
  /\ Dashboard.yVals (Dashboard.fetchReadings rows)
     = [Some (Qmax 0 ((1.2 - 1.0) * 3600000000 / inject_Z (3600000 - 0)))].
Proof.
  intros rows.
  assert (Hnull : Forall (fun r => Dashboard.p r = None) rows)
    by (repeat constructor).
  split; [exact Hnull|].
  destruct (proj1 (derived_power_series rows Hnull)) as (_ & Hx & Hy).
  { discriminate. }
  split; [exact Hx|exact Hy].
Defined.

(** C2, counterexample: every power is null and two readings carry an
    energy, but no two adjacent ones do: the series is not rebuilt, the
    three raw points stay, with null powers. *)
Lemma energy_not_adjacent_keeps_raw_series :
  let rows := [ {| Dashboard.t := 0; Dashboard.p := None;
                   Dashboard.e := Some 1.0%Q |};
                {| Dashboard.t := 1000; Dashboard.p := None;
                   Dashboard.e := None |};
                {| Dashboard.t := 2000; Dashboard.p := None;
                   Dashboard.e := Some 2.0%Q |} ] in
  Dashboard.derive rows = []
  /\ Dashboard.fetchReadings rows =
     {| Dashboard.xVals := [0; 1; 2];
        Dashboard.yVals := [None; None; None];
        Dashboard.eVals := [Some 1.0%Q; None; Some 2.0%Q];
        Dashboard.usedDerived := false |}.
Proof. split; reflexivity. Qed.

(** ** Comparison of two periods *)

Section CompareFacts.
Import Compare.

Lemma sameNumber_refl v : sameNumber v v.
Proof. destruct v; simpl; [reflexivity|exact I]. Qed.

Lemma absoluteDiff_scaled a b c :
  sameNumber
    (match absoluteDiff a b with Some d => Some (d * c)%Q | None => None end)
    (absoluteDiff (option_map (fun v => (v * c)%Q) a)
                  (option_map (fun v => (v * c)%Q) b)).
Proof. destruct a, b; simpl; try exact I. ring. Qed.

Lemma percentDiff_baseline A B : missingOrZero A -> percentDiff A B = None.
Proof.
  destruct A as [a|], B as [b|]; simpl; try reflexivity.
  intros Ha. unfold nonZero. apply Qeq_bool_iff in Ha. rewrite Ha. reflexivity.
Qed.

Lemma absoluteDiff_swap A B : negated (absoluteDiff A B) (absoluteDiff B A).
Proof. destruct A, B; simpl; try exact I. ring. Qed.

Lemma absoluteDiff_scaled_swap a b c :
  negated
    (match absoluteDiff a b with Some d => Some (d * c)%Q | None => None end)
    (match absoluteDiff b a with Some d => Some (d * c)%Q | None => None end).
Proof. destruct a, b; simpl; try exact I. ring. Qed.

Lemma quotient_sign (x a : Q) :
  ~ (a == 0)%Q ->
  ((0 < x / a * 100 <-> 0 < x * a) /\ (x / a * 100 < 0 <-> x * a < 0))%Q.
Proof.
  intros Ha.
  assert (Hsq : (0 < a * a)%Q) by nra.
  assert (Heq : ((x / a * 100) * (a * a) == 100 * (x * a))%Q) by (field; exact Ha).
  split; split; intros H; nra.
Qed.

Lemma percentDiff_swap A B :
  sameSign A B -> oppositeSign (percentDiff A B) (percentDiff B A).
Proof.
  destruct A as [a|], B as [b|]; simpl; try contradiction.
  intros Hab.
  assert (Ha : ~ (a == 0)%Q) by (intros H; rewrite H in Hab; lra).
  assert (Hb : ~ (b == 0)%Q) by (intros H; rewrite H in Hab; lra).
  unfold nonZero.
  destruct (Qeq_bool a 0) eqn:Ea; [apply Qeq_bool_iff in Ea; contradiction|].
  destruct (Qeq_bool b 0) eqn:Eb; [apply Qeq_bool_iff in Eb; contradiction|].
  simpl.
  destruct (quotient_sign (b - a) a Ha) as [P1 N1].
  destruct (quotient_sign (a - b) b Hb) as [P2 N2].
  assert (Hbb : (0 < b * b)%Q) by nra.
  assert (Haa : (0 < a * a)%Q) by nra.
  split; split; intros H.
  - apply N2. apply P1 in H. nra.
  - apply P1. apply N2 in H. nra.
  - apply P2. apply N1 in H. nra.
  - apply N1. apply P2 in H. nra.
Qed.

End CompareFacts.

(** C6 (as amended).  For each of energy, daily average energy, average
    power, cost and cost per day, the comparison computes [diff = B - A]
    and [pctDiff = diff / A * 100] when the baseline [A] is nonzero, and a
    null [pctDiff] when the baseline is 0 or missing.  Swapping the two
    periods negates every [diff]; it inverts the sign of a [pctDiff] when
    the two periods' values of the metric are nonzero and of the same
    sign. *)
Theorem comparison_diffs statsA statsB rangeA rangeB costPerKwh :
  let dAB := Compare.renderDiff statsA statsB rangeA rangeB costPerKwh in
  let dBA := Compare.renderDiff statsB statsA rangeB rangeA costPerKwh in
  let mA := Compare.periodMetrics statsA rangeA costPerKwh in
  let mB := Compare.periodMetrics statsB rangeB costPerKwh in
  Forall2 Compare.sameNumber (Compare.absoluteDiffs dAB)
          (Compare.pairwise Compare.absoluteDiff mA mB)
  /\ Forall2 Compare.sameNumber (Compare.percentDiffs dAB)
             (Compare.pairwise Compare.percentDiff mA mB)
  /\ Forall2 (fun A pct => Compare.missingOrZero A -> pct = None)
             mA (Compare.percentDiffs dAB)
  /\ Forall2 Compare.negated (Compare.absoluteDiffs dAB)
             (Compare.absoluteDiffs dBA)
  /\ Forall2 (fun AB pcts =>
                Compare.sameSign (fst AB) (snd AB) ->
                Compare.oppositeSign (fst pcts) (snd pcts))
             (combine mA mB)
             (combine (Compare.percentDiffs dAB) (Compare.percentDiffs dBA)).
Proof.
  intros dAB dBA mA mB.
  set (a := match statsA with
            | Some st => Compare.energy_used_kwh st | None => None end).
  set (b := match statsB with
            | Some st => Compare.energy_used_kwh st | None => None end).
  set (avgA := match statsA with
               | Some st => Compare.avg_power_watts st | None => None end).
  set (avgB := match statsB with
               | Some st => Compare.avg_power_watts st | None => None end).
  set (costA := option_map (fun v => (v * costPerKwh)%Q) a).
  set (costB := option_map (fun v => (v * costPerKwh)%Q) b).
  assert (HmA : mA = [a; Compare.perDay a rangeA; avgA; costA;
                      Compare.perDay costA rangeA]) by reflexivity.
  assert (HmB : mB = [b; Compare.perDay b rangeB; avgB; costB;
                      Compare.perDay costB rangeB]) by reflexivity.
  assert (Habs : forall sA sB rA rB x y,
            x = match sA with
                | Some st => Compare.energy_used_kwh st | None => None end ->
            y = match sB with
                | Some st => Compare.energy_used_kwh st | None => None end ->
            Compare.absoluteDiffs (Compare.renderDiff sA sB rA rB costPerKwh) =
            [Compare.absoluteDiff x y;
             Compare.absoluteDiff (Compare.perDay x rA) (Compare.perDay y rB);
             Compare.absoluteDiff
               (match sA with
                | Some st => Compare.avg_power_watts st | None => None end)
               (match sB with
                | Some st => Compare.avg_power_watts st | None => None end);
             match Compare.absoluteDiff x y with
             | Some d => Some (d * costPerKwh)%Q | None => None end;
             Compare.absoluteDiff
               (Compare.perDay (option_map (fun v => (v * costPerKwh)%Q) x) rA)
               (Compare.perDay (option_map (fun v => (v * costPerKwh)%Q) y) rB)]).
  { intros sA sB rA rB x y -> ->.
    destruct sA as [[xa pa]|], sB as [[xb pb]|]; simpl;
      try destruct xa; try destruct xb; reflexivity. }
  assert (Hpct : forall sA sB rA rB x y,
            x = match sA with
                | Some st => Compare.energy_used_kwh st | None => None end ->
            y = match sB with
                | Some st => Compare.energy_used_kwh st | None => None end ->
            Compare.percentDiffs (Compare.renderDiff sA sB rA rB costPerKwh) =
            [Compare.percentDiff x y;
             Compare.percentDiff (Compare.perDay x rA) (Compare.perDay y rB);
             Compare.percentDiff
               (match sA with
                | Some st => Compare.avg_power_watts st | None => None end)
               (match sB with
                | Some st => Compare.avg_power_watts st | None => None end);
             Compare.percentDiff (option_map (fun v => (v * costPerKwh)%Q) x)
                                 (option_map (fun v => (v * costPerKwh)%Q) y);
             Compare.percentDiff
               (Compare.perDay (option_map (fun v => (v * costPerKwh)%Q) x) rA)
               (Compare.perDay (option_map (fun v => (v * costPerKwh)%Q) y) rB)]).
  { intros sA sB rA rB x y -> ->.
    destruct sA as [[xa pa]|], sB as [[xb pb]|]; simpl;
      try destruct xa; try destruct xb; reflexivity. }
  subst dAB dBA.
  rewrite (Habs statsA statsB rangeA rangeB a b eq_refl eq_refl).
  rewrite (Habs statsB statsA rangeB rangeA b a eq_refl eq_refl).
  rewrite (Hpct statsA statsB rangeA rangeB a b eq_refl eq_refl).
  rewrite (Hpct statsB statsA rangeB rangeA b a eq_refl eq_refl).
  fold avgA avgB costA costB. rewrite HmA, HmB.
  unfold Compare.pairwise. cbn [combine map fst snd].
  repeat split; repeat constructor; cbn [fst snd];
    try apply sameNumber_refl; try apply absoluteDiff_scaled;
    try apply percentDiff_baseline; try apply absoluteDiff_swap;
    try apply absoluteDiff_scaled_swap; try apply percentDiff_swap.
Qed.

(** C6, counterexample: with a positive energy in one period and a negative
    one in the other, both baselines are nonzero and the percentage is
    negative whichever period comes first. *)
Lemma percent_sign_not_inverted :
  let A := Some {| Compare.energy_used_kwh := Some 10%Q;
                   Compare.avg_power_watts := None |} in
  let B := Some {| Compare.energy_used_kwh := Some (-5)%Q;
                   Compare.avg_power_watts := None |} in
  let day := Some {| Compare.startMs := 0; Compare.endMs := 86399999 |} in
  exists pAB pBA,
    Compare.diffPct (Compare.renderDiff A B day day 0.3102%Q) = Some pAB
    /\ Compare.diffPct (Compare.renderDiff B A day day 0.3102%Q) = Some pBA
    /\ (pAB == -150)%Q /\ (pBA == -300)%Q.
Proof.
  eexists _, _. split; [reflexivity|]. split; [reflexivity|].
  split; vm_compute; reflexivity.
Qed.

(** ** Calendar days *)

Section DateFacts.
Variable tz : Z.

Lemma civilFromDays_month z :
  0 <= snd (fst (JSDate.civilFromDays z)) <= 11.
Proof.
  unfold JSDate.civilFromDays. cbv zeta.
  set (z' := z + 719468). set (era := z' / 146097).
  set (doe := z' - era * 146097).
  assert (Hdoe : 0 <= doe < 146097)
    by (subst doe era; Z.div_mod_to_equations; lia).
  pose proof (era_day_bounds doe Hdoe) as Hb. cbv zeta in Hb.
  destruct Hb as [_ Hm]. cbn [fst snd].
  destruct (_ <? 10) eqn:E; [apply Z.ltb_lt in E|apply Z.ltb_ge in E]; lia.
Qed.

Lemma daysFromCivil_day y m0 d k :
  JSDate.daysFromCivil y m0 (d + k) = JSDate.daysFromCivil y m0 d + k.
Proof. unfold JSDate.daysFromCivil. cbv zeta. lia. Qed.

(** [new Date(t.getFullYear(), t.getMonth(), t.getDate() + k, h, mi, s, ms)]
    is [k] days and the given time of day after the local midnight of
    [t]'s day. *)
Lemma newDate_of_fields t k h mi s ms :
  Compare.fullYear (JSDate.getFullYear tz t) ->
  JSDate.newDate tz (JSDate.getFullYear tz t) (JSDate.getMonth tz t)
                 (JSDate.getDate tz t + k) h mi s ms
  = JSDate.startOfLocalDay tz t + k * JSDate.msPerDay
    + JSDate.MakeTime h mi s ms.
Proof.
  unfold Compare.fullYear, JSDate.newDate, JSDate.getFullYear,
    JSDate.getMonth, JSDate.getDate, JSDate.startOfLocalDay.
  set (z := JSDate.Day (JSDate.LocalTime tz t)).
  pose proof (civil_roundtrip z) as Hrt.
  pose proof (civilFromDays_month z) as Hm.
  destruct (JSDate.civilFromDays z) as [[y m0] d]. cbn [fst snd] in *.
  intros Hy.
  replace ((0 <=? y) && (y <=? 99)) with false.
  2:{ symmetry. apply andb_false_iff.
      destruct (Z.leb_spec 0 y), (Z.leb_spec y 99); auto. lia. }
  unfold JSDate.MakeDay. cbv zeta.
  rewrite Z.div_small, Z.mod_small by lia.
  replace (y + 0) with y by lia.
  pose proof (daysFromCivil_day y m0 d (1 - d)) as Hday.
  replace (d + (1 - d)) with 1 in Hday by lia.
  rewrite Hday, Hrt.
  unfold JSDate.MakeDate, JSDate.UTC. lia.
Qed.

Lemma startOfLocalDay_le t : JSDate.startOfLocalDay tz t <= t.
Proof.
  unfold JSDate.startOfLocalDay, JSDate.UTC, JSDate.Day, JSDate.LocalTime,
    JSDate.msPerDay.
  Z.div_mod_to_equations. lia.
Qed.

Lemma endOfLocalDay_ge t : t <= JSDate.endOfLocalDay tz t.
Proof.
  unfold JSDate.endOfLocalDay, JSDate.startOfLocalDay, JSDate.UTC,
    JSDate.Day, JSDate.LocalTime, JSDate.msPerDay.
  Z.div_mod_to_equations. lia.
Qed.

Lemma startOfLocalDay_mono t u :
  t <= u -> JSDate.startOfLocalDay tz t <= JSDate.startOfLocalDay tz u.
Proof.
  unfold JSDate.startOfLocalDay, JSDate.UTC, JSDate.Day, JSDate.LocalTime,
    JSDate.msPerDay.
  intros H.
  pose proof (Z.div_le_mono (t + tz) (u + tz) 86400000 ltac:(lia) ltac:(lia)).
  lia.
Qed.

(** A date made at time 0:00:00.000 is the local midnight of its day. *)
Lemma newDate_midnight y m d :
  JSDate.startOfLocalDay tz (JSDate.newDate tz y m d 0 0 0 0)
  = JSDate.newDate tz y m d 0 0 0 0.
Proof.
  unfold JSDate.startOfLocalDay, JSDate.newDate, JSDate.UTC,
    JSDate.LocalTime, JSDate.Day, JSDate.MakeDate, JSDate.MakeTime.
  cbv zeta. set (day := JSDate.MakeDay _ m d).
  replace (day * JSDate.msPerDay + (0 * 3600000 + 0 * 60000 + 0 * 1000 + 0)
           - tz + tz) with (day * JSDate.msPerDay) by lia.
  rewrite Z.div_mul by (unfold JSDate.msPerDay; lia). lia.
Qed.

Lemma getEndOfTodayMs_endOfLocalDay now :
  Compare.fullYear (JSDate.getFullYear tz now) ->
  Compare.getEndOfTodayMs tz now = JSDate.endOfLocalDay tz now.
Proof.
  intros Hy. unfold Compare.getEndOfTodayMs. cbv zeta.
  rewrite (newDate_of_fields now 1 0 0 0 0 Hy).
  unfold JSDate.endOfLocalDay, JSDate.MakeTime. lia.
Qed.

Lemma getRange_days sd ed :
  Compare.fullYear (JSDate.getFullYear tz sd) ->
  Compare.fullYear (JSDate.getFullYear tz ed) ->
  Compare.getRange tz {| Compare.startDate := Some sd;
                         Compare.endDate := Some ed;
                         Compare.step := Compare.StepStart |}
  = Some {| Compare.startMs := JSDate.startOfLocalDay tz sd;
            Compare.endMs := JSDate.endOfLocalDay tz ed |}.
Proof.
  intros Hs He. unfold Compare.getRange. cbn [Compare.startDate Compare.endDate].
  cbv zeta.
  replace (JSDate.getDate tz sd) with (JSDate.getDate tz sd + 0) by lia.
  replace (JSDate.getDate tz ed) with (JSDate.getDate tz ed + 0) by lia.
  rewrite (newDate_of_fields sd 0 0 0 0 0 Hs).
  rewrite (newDate_of_fields ed 0 23 59 59 999 He).
  unfold JSDate.endOfLocalDay, JSDate.MakeTime, JSDate.msPerDay.
  do 2 f_equal; lia.
Qed.

End DateFacts.

(** C8 (as amended).  A period's range is trimmed so that its end does not
    exceed the last millisecond of the current local day (23:59:59.999
    today): the trimmed end is the smaller of the range's end and that
    instant, which is not before the current moment; the start is kept. *)
Theorem trimmed_end_within_today tz now range :
  Compare.fullYear (JSDate.getFullYear tz now) ->
  exists r,
    Compare.trimRangeToToday tz now (Some range) = Some r
    /\ Compare.startMs r = Compare.startMs range
    /\ Compare.endMs r
       = Z.min (Compare.endMs range) (JSDate.endOfLocalDay tz now)
    /\ Compare.endMs r <= JSDate.endOfLocalDay tz now
    /\ now <= JSDate.endOfLocalDay tz now.
Proof.
  intros Hy. unfold Compare.trimRangeToToday. cbv zeta.
  rewrite (getEndOfTodayMs_endOfLocalDay tz now Hy).
  eexists. split; [reflexivity|]. cbn [Compare.startMs Compare.endMs].
  pose proof (endOfLocalDay_ge tz now).
  repeat split; lia.
Qed.

Lemma trimmed_end_within_today_witness :
  Compare.fullYear (JSDate.getFullYear 3600000 1793617200000)
  /\ exists r,
       Compare.trimRangeToToday 3600000 1793617200000
         (Some {| Compare.startMs := 1793574000000;
                  Compare.endMs := 1794265199999 |}) = Some r
       /\ Compare.endMs r = Z.min 1794265199999
                              (JSDate.endOfLocalDay 3600000 1793617200000).
Proof.
  assert (Hy : Compare.fullYear (JSDate.getFullYear 3600000 1793617200000)).
  { unfold Compare.fullYear. vm_compute. intros [_ H]. apply H. reflexivity. }
  split; [exact Hy|].
  destruct (trimmed_end_within_today 3600000 1793617200000
              {| Compare.startMs := 1793574000000;
                 Compare.endMs := 1794265199999 |} Hy)
    as (r & Hr & _ & He & _).
  exists r. split; [exact Hr|exact He].
Defined.

(** C8, counterexample: at noon, a range that ends with the current day is
    left as it is, and its end is twelve hours after the current moment. *)
Lemma trimmed_end_after_now :
  let tz := 3600000 in
  let now := 1793617200000 in
  let today := {| Compare.startMs := 1793574000000;
                  Compare.endMs := 1793660399999 |} in
  JSDate.civilFromDays (JSDate.Day (JSDate.LocalTime tz now)) = (2026, 10, 2)
  /\ JSDate.TimeWithinDay (JSDate.LocalTime tz now) = 12 * 3600000
  /\ Compare.trimRangeToToday tz now (Some today) = Some today
  /\ now < Compare.endMs today.
Proof. repeat split. Qed.

(** C10.  In a range calendar that waits for a first pick, picking one day
    leaves [getRange()] null; picking a second day makes it the range from
    the local midnight (00:00:00.000) of the earlier of the two days to
    23:59:59.999 of the later one, in whichever order they were picked, so
    that [endMs > startMs]; and [getRange()] is null for every calendar
    that lacks a start or an end date.  The picked days are those that
    [new Date(y, m - 1, day)] makes, whose year is outside the two-digit
    years 0..99. *)
Theorem picked_range_whole_days tz c y1 m1 day1 y2 m2 day2 :
  let t1 := JSDate.newDate tz y1 (m1 - 1) day1 0 0 0 0 in
  let t2 := JSDate.newDate tz y2 (m2 - 1) day2 0 0 0 0 in
  let first := Compare.clickDay tz y1 m1 day1 c in
  let second := Compare.clickDay tz y2 m2 day2 first in
  Compare.step c = Compare.StepStart ->
  Compare.fullYear (JSDate.getFullYear tz t1) ->
  Compare.fullYear (JSDate.getFullYear tz t2) ->
  (forall c', Compare.startDate c' = None \/ Compare.endDate c' = None ->
              Compare.getRange tz c' = None)
  /\ Compare.getRange tz first = None
  /\ exists r,
       Compare.getRange tz second = Some r
       /\ Compare.startMs r = Z.min t1 t2
       /\ Compare.startMs r = JSDate.startOfLocalDay tz (Z.min t1 t2)
       /\ Compare.endMs r = JSDate.endOfLocalDay tz (Z.max t1 t2)
       /\ Compare.startMs r < Compare.endMs r.
Proof.
  intros t1 t2 first second Hstep Hy1 Hy2.
  split.
  { intros c' [H|H]; unfold Compare.getRange; rewrite H;
      [reflexivity|destruct (Compare.startDate c'); reflexivity]. }
  assert (Hfirst : first = {| Compare.startDate := Some t1;
                              Compare.endDate := None;
                              Compare.step := Compare.StepEnd |})
    by (unfold first, Compare.clickDay; rewrite Hstep; reflexivity).
  split; [rewrite Hfirst; reflexivity|].
  assert (Hmid1 : JSDate.startOfLocalDay tz t1 = t1)
    by apply newDate_midnight.
  assert (Hmid2 : JSDate.startOfLocalDay tz t2 = t2)
    by apply newDate_midnight.
  assert (Hsecond : second =
            {| Compare.startDate := Some (Z.min t1 t2);
               Compare.endDate := Some (Z.max t1 t2);
               Compare.step := Compare.StepStart |}).
  { unfold second, Compare.clickDay. rewrite Hfirst.
    cbn [Compare.step Compare.startDate]. fold t2.
    destruct (Z.ltb_spec t2 t1).
    - rewrite Z.min_r, Z.max_l by lia. reflexivity.
    - rewrite Z.min_l, Z.max_r by lia. reflexivity. }
  rewrite Hsecond, getRange_days.
  - eexists. split; [reflexivity|]. cbn [Compare.startMs Compare.endMs].
    assert (Hmin : JSDate.startOfLocalDay tz (Z.min t1 t2) = Z.min t1 t2)
      by (destruct (Z.min_spec t1 t2) as [[_ ->]|[_ ->]]; assumption).
    assert (Hmax : JSDate.startOfLocalDay tz (Z.max t1 t2) = Z.max t1 t2)
      by (destruct (Z.max_spec t1 t2) as [[_ ->]|[_ ->]]; assumption).
    unfold JSDate.endOfLocalDay, JSDate.msPerDay.
    repeat split; lia.
  - destruct (Z.min_spec t1 t2) as [[_ ->]|[_ ->]]; assumption.
  - destruct (Z.max_spec t1 t2) as [[_ ->]|[_ ->]]; assumption.
Qed.

Lemma picked_range_whole_days_witness :
  let tz := 3600000 in
  let c := Compare.createRangeCalendar tz None None in
  Compare.step c = Compare.StepStart
  /\ Compare.fullYear
       (JSDate.getFullYear tz (JSDate.newDate tz 2026 (11 - 1) 2 0 0 0 0))
  /\ Compare.fullYear
       (JSDate.getFullYear tz (JSDate.newDate tz 2026 (10 - 1) 26 0 0 0 0))
  /\ exists r,
       Compare.getRange tz
         (Compare.clickDay tz 2026 10 26 (Compare.clickDay tz 2026 11 2 c))
       = Some r
       /\ Compare.startMs r < Compare.endMs r.
Proof.
  intros tz c.
  assert (Hstep : Compare.step c = Compare.StepStart) by reflexivity.
  assert (Hy1 : Compare.fullYear
            (JSDate.getFullYear tz (JSDate.newDate tz 2026 (11 - 1) 2 0 0 0 0))).
  { unfold Compare.fullYear. vm_compute. intros [_ H]. apply H. reflexivity. }
  assert (Hy2 : Compare.fullYear
            (JSDate.getFullYear tz (JSDate.newDate tz 2026 (10 - 1) 26 0 0 0 0))).
  { unfold Compare.fullYear. vm_compute. intros [_ H]. apply H. reflexivity. }
  split; [exact Hstep|]. split; [exact Hy1|]. split; [exact Hy2|].
  destruct (picked_range_whole_days tz c 2026 11 2 2026 10 26 Hstep Hy1 Hy2)
    as (_ & _ & r & Hr & _ & _ & _ & Hlt).
  exists r. split; [exact Hr|exact Hlt].
Defined.

(** ** The persisted cost per kWh *)



(** ** The chart's fetch group *)

(** C7, the defect.  A call of [fetchChartData] aborts no controller and
    leaves every fetch group in flight as it is; only [hideChart] aborts.
    The failing run: with the chart shown, the days input changes to 30 and
    then to 1 before the first fetch group settles; both groups are in
    flight, and when the older one settles last the chart shows its 30
    days, not the most recent request. *)
Theorem new_chart_fetch_aborts_nothing :
  (forall days st,
     Mobile.aborted (Mobile.fetchChartData days st) = Mobile.aborted st
     /\ forall f, In f (Mobile.pending st) ->
                  In f (Mobile.pending (Mobile.fetchChartData days st)))
  /\ let requested := Mobile.run Mobile.chartShown
                        [Mobile.DaysChange 30; Mobile.DaysChange 1] in
     let settled := Mobile.run requested
                      [Mobile.Settle 2 Mobile.Fulfilled;
                       Mobile.Settle 1 Mobile.Fulfilled] in
     Mobile.pending requested = [(1%nat, 30); (2%nat, 1)]
     /\ Mobile.aborted requested = []
     /\ Mobile.chartDays settled = Some 30
     /\ Mobile.pending settled = [].
Proof.
  split.
  - intros days st. split; [reflexivity|].
    intros f Hf. simpl. apply in_or_app. left. exact Hf.
  - repeat split.
Qed.

(** * Further properties *)

(** ** The charts' series and scales *)

Section ChartFacts.
Import CompareCharts.

Lemma rollingFrom_length ys : forall ema,
  List.length (rollingFrom ema ys) = List.length ys.
Proof.
  induction ys as [|[v|] ys IH]; intros ema; simpl; auto.
Qed.

Lemma rollingFrom_started ys : forall e,
  Forall (fun v => v <> None) (rollingFrom (Some e) ys).
Proof.
  induction ys as [|[v|] ys IH]; intros e; simpl; constructor;
    try discriminate; apply IH.
Qed.

Lemma rollingFrom_bounds lo hi ys : forall ema,
  (forall e, ema = Some e -> lo <= e <= hi)%Q ->
  (forall v, In (Some v) ys -> lo <= v <= hi)%Q ->
  (forall v, In (Some v) (rollingFrom ema ys) -> lo <= v <= hi)%Q.
Proof.
  induction ys as [|[w|] ys IH]; intros ema Hema Hys v Hin; simpl in Hin.
  - contradiction.
  - assert (Hw : (lo <= w <= hi)%Q) by (apply Hys; left; reflexivity).
    set (e' := match ema with
               | Some ema0 => (alpha * w + (1 - alpha) * ema0)%Q
               | None => w
               end) in *.
    assert (He' : (lo <= e' <= hi)%Q).
    { subst e'. destruct ema as [e0|]; [|exact Hw].
      specialize (Hema e0 eq_refl). unfold alpha. lra. }
    destruct Hin as [Hin|Hin].
    + inversion Hin; subst. exact He'.
    + apply (IH (Some e')); auto.
      * intros e Heq. inversion Heq; subst. exact He'.
      * intros u Hu. apply Hys. right. exact Hu.
  - destruct Hin as [Hin|Hin].
    + apply Hema. exact Hin.
    + apply (IH ema); auto. intros u Hu. apply Hys. right. exact Hu.
Qed.

End ChartFacts.

(** X1.  The rolling average has one entry per power sample; it is null up
    to the first finite sample, starts there with that sample's value, and
    is never null afterwards. *)
Theorem rolling_average_starts_at_first_sample yVals :
  let out := CompareCharts.calculateRollingAvg yVals in
  let k := CompareCharts.leadingNulls yVals in
  List.length out = List.length yVals
  /\ firstn k out = repeat None k
  /\ Forall (fun v => v <> None) (skipn k out)
  /\ nth_error out k = nth_error yVals k.
Proof.
  unfold CompareCharts.calculateRollingAvg.
  induction yVals as [|[v|] ys IH]; simpl.
  - repeat split; constructor.
  - repeat split.
    + f_equal. apply rollingFrom_length.
    + constructor; [discriminate|apply rollingFrom_started].
  - destruct IH as (Hl & Hf & Hs & Hn).
    repeat split; [f_equal; exact Hl|f_equal; exact Hf|exact Hs|exact Hn].
Qed.

(** X2.  Every value of the rolling average lies between any two bounds
    that hold all the finite power samples: the average never leaves the
    range of the data. *)
Theorem rolling_average_within_data yVals lo hi v :
  (forall w, In (Some w) yVals -> lo <= w <= hi)%Q ->
  In (Some v) (CompareCharts.calculateRollingAvg yVals) ->
  (lo <= v <= hi)%Q.
Proof.
  intros Hys Hin.
  apply (rollingFrom_bounds lo hi yVals None); auto.
  intros e He. discriminate.
Qed.

Lemma rolling_average_within_data_witness :
  (forall w, In (Some w) [Some 100%Q; None; Some 200%Q] ->
             100 <= w <= 200)%Q
  /\ (100 <= 0.0001 * 200 + (1 - 0.0001) * 100 <= 200)%Q.
Proof.
  assert (H : (forall w, In (Some w) [Some 100%Q; None; Some 200%Q] ->
                         100 <= w <= 200)%Q).
  { intros w [Hw|[Hw|[Hw|[]]]]; inversion Hw; subst; lra. }
  split; [exact H|].
  apply (rolling_average_within_data [Some 100%Q; None; Some 200%Q]
           100%Q 200%Q _ H).
  right. right. left. reflexivity.
Defined.
